(** * NanoLens: the capture / analysis / edit session controller

    A shallow embedding of [src/App.tsx] and [src/types.ts].

    The React component [App] is modelled as a record of its [useState]
    cells and [useRef] cells, together with the part of the browser the
    handlers talk to (outstanding promises, media streams, recorders,
    intervals).  Every handler of the component is a function on that
    record; an [await] splits a handler into the part that runs up to the
    call and a continuation that runs when the promise settles.  The
    continuation is kept in the list of outstanding tasks together with
    the values its closure captured.  A handler reads the cells of the
    render it was created in; events are dispatched after the render that
    follows the previous one, so that is the current state.

    Outside the model: the zoom cells and [handleZoomChange], [exportToPDF]
    and [shareContent] (they write only [zoom] and [error]), the developer
    card, the write-back of [history] to [localStorage] (it is
    [JSON.stringify history] after every commit).  A [MediaRecorder] is
    followed only as far as its [stop] event: the browser may raise it for
    a recorder that was asked to stop and, by itself, for one that is
    still recording (when the tracks of its stream end). *)

From Stdlib Require Import List String Ascii Bool Arith NArith Lia.
From Stdlib Require Import DecimalString.
Import ListNotations.
Local Open Scope string_scope.
Local Open Scope list_scope.

Set Implicit Arguments.

(** ** JavaScript strings *)

Module Js.

(** A value of static type [string] that may be [undefined] at run time. *)
Definition str_or_undefined := option string.

(** Truthiness of a string: every string but the empty one. *)
Definition truthy (s : string) : bool :=
  match s with EmptyString => false | String _ _ => true end.

(** Truthiness of [string | null | undefined]. *)
Definition truthy_opt (o : option string) : bool :=
  match o with Some s => truthy s | None => false end.

(** [a || b] on [string | null] with a string on the right. *)
Definition or_else (a : option string) (b : string) : string :=
  match a with
  | Some s => if truthy s then s else b
  | None => b
  end.

(** [s.split(c)]: the pieces of [s] between occurrences of [c]. *)
Fixpoint split (c : ascii) (s : string) : list string :=
  match s with
  | EmptyString => [EmptyString]
  | String a r =>
      if Ascii.eqb a c then EmptyString :: split c r
      else match split c r with
           | h :: t => String a h :: t
           | [] => [String a EmptyString]
           end
  end.

(** [s.split(',')[1]]; [None] is [undefined]. *)
Definition after_comma (s : string) : str_or_undefined :=
  nth_error (split "," s) 1.

(** [s] has no occurrence of [c]. *)
Fixpoint lacks (c : ascii) (s : string) : bool :=
  match s with
  | EmptyString => true
  | String a r => negb (Ascii.eqb a c) && lacks c r
  end.

(** White space of [String.prototype.trim].  A string is held as the
    bytes of its UTF-8 encoding, so a white-space code point takes one,
    two or three bytes:
    - one byte: TAB, LF, VT, FF, CR and SP;
    - two bytes: U+00A0 (C2 A0);
    - three bytes: U+1680 (E1 9A 80), U+2000 to U+200A (E2 80 80 to
      E2 80 8A), U+2028 and U+2029 (E2 80 A8, E2 80 A9), U+202F
      (E2 80 AF), U+205F (E2 81 9F), U+3000 (E3 80 80) and U+FEFF
      (EF BB BF). *)
Definition ws1 (a : ascii) : bool :=
  let n := nat_of_ascii a in
  Nat.eqb n 9 || Nat.eqb n 10 || Nat.eqb n 11 || Nat.eqb n 12 || Nat.eqb n 13
  || Nat.eqb n 32.

Definition ws2 (a b : ascii) : bool :=
  Nat.eqb (nat_of_ascii a) 194 && Nat.eqb (nat_of_ascii b) 160.

Definition ws3 (a b c : ascii) : bool :=
  let x := nat_of_ascii a in
  let y := nat_of_ascii b in
  let z := nat_of_ascii c in
  (Nat.eqb x 225 && Nat.eqb y 154 && Nat.eqb z 128)
  || (Nat.eqb x 226 && Nat.eqb y 128
      && ((Nat.leb 128 z && Nat.leb z 138)
          || Nat.eqb z 168 || Nat.eqb z 169 || Nat.eqb z 175))
  || (Nat.eqb x 226 && Nat.eqb y 129 && Nat.eqb z 159)
  || (Nat.eqb x 227 && Nat.eqb y 128 && Nat.eqb z 128)
  || (Nat.eqb x 239 && Nat.eqb y 187 && Nat.eqb z 191).

(** The number of bytes of the white-space code point [s] starts with,
    0 when it starts with none. *)
Definition ws_head (s : string) : nat :=
  match s with
  | String a r =>
      if ws1 a then 1
      else
        match r with
        | String b r2 =>
            if ws2 a b then 2
            else
              match r2 with
              | String c _ => if ws3 a b c then 3 else 0
              | EmptyString => 0
              end
        | EmptyString => 0
        end
  | EmptyString => 0
  end.

Fixpoint trimStart (s : string) : string :=
  match s with
  | EmptyString => EmptyString
  | String _ r =>
      match ws_head s with
      | 1 => trimStart r
      | 2 => match r with
             | String _ r2 => trimStart r2
             | EmptyString => s
             end
      | 3 => match r with
             | String _ (String _ r3) => trimStart r3
             | _ => s
             end
      | _ => s
      end
  end.

(** [s] is white space only (the empty string included). *)
Definition blank (s : string) : bool := negb (truthy (trimStart s)).

Fixpoint trimEnd (s : string) : string :=
  match s with
  | EmptyString => EmptyString
  | String a r => if blank s then EmptyString else String a (trimEnd r)
  end.

Definition trim (s : string) : string := trimEnd (trimStart s).

(** [n.toString()] for a non-negative integer. *)
Definition toString (n : N) : string :=
  NilZero.string_of_uint (N.to_uint n).

(** [s.startsWith(p)]. *)
Definition startsWith (p s : string) : bool := String.prefix p s.

End Js.

(** ** types.ts *)

Record AnalysisResult := {
  description : option string;
  points : option (list string)
}.

Record EditResult := {
  imageData : option string;
  textResponse : option string
}.

Inductive AppState := IDLE | RECORDING | ANALYZING | VIEWING | EDITING | ERROR.

Inductive CaptureMode := PHOTO | VIDEO.

Inductive MediaType := image | video.

Record ImageFile := {
  id : string;
  preview : string;
  raw : Js.str_or_undefined;
  mimeType : string;
  timestamp : N;
  type : MediaType;
  analysis : option AnalysisResult
}.

Definition HistoryItem := ImageFile.

Definition AppState_eqb (a b : AppState) : bool :=
  match a, b with
  | IDLE, IDLE | RECORDING, RECORDING | ANALYZING, ANALYZING
  | VIEWING, VIEWING | EDITING, EDITING | ERROR, ERROR => true
  | _, _ => false
  end.

Definition CaptureMode_eqb (a b : CaptureMode) : bool :=
  match a, b with
  | PHOTO, PHOTO | VIDEO, VIDEO => true
  | _, _ => false
  end.

(** [{ ...file, analysis: result }] *)
Definition with_analysis (file : ImageFile) (result : AnalysisResult) : ImageFile :=
  {| id := id file; preview := preview file; raw := raw file;
     mimeType := mimeType file; timestamp := timestamp file;
     type := type file; analysis := Some result |}.

(** ** The history store (App.tsx, lines 50-60 and 300-307) *)

(** What [JSON.parse] gives for a persisted text: the array of records
    the save effect writes, or a value that is no such array ([null], or
    anything else: an object, a number, a string, an array of other
    things). *)
Inductive JsonValue :=
| JsonRecords (items : list HistoryItem)
| JsonNull
| JsonOther.

(** The value as a sequence of records, when it is one. *)
Definition asRecords (v : JsonValue) : option (list HistoryItem) :=
  match v with
  | JsonRecords items => Some items
  | _ => None
  end.

Module HistoryStore.

Definition bound : nat := 50.

(** [prev => [item, ...prev].slice(0, 50)] *)
Definition addToHistory (item : HistoryItem) (prev : list HistoryItem)
  : list HistoryItem :=
  firstn bound (item :: prev).

(** [prev => prev.filter(i => i.id !== id)] *)
Definition deleteHistoryItem (target : string) (prev : list HistoryItem)
  : list HistoryItem :=
  filter (fun i => negb (String.eqb (id i) target)) prev.

Section Load.

(** [JSON.parse]; [None] when it throws. *)
Variable JSON_parse : string -> option JsonValue.

(** The mount effect: the initial [useState] value is [[]]; a truthy
    saved string that parses replaces it by the parsed value, whatever
    that is; a parse error is caught. *)
Definition load (saved : option string) : JsonValue :=
  match saved with
  | Some text =>
      if Js.truthy text then
        match JSON_parse text with
        | Some parsed => parsed
        | None => JsonRecords []
        end
      else JsonRecords []
  | None => JsonRecords []
  end.

End Load.

End HistoryStore.

(** ** The component: state cells, refs and the browser around them *)

(** [useState] cells of [App] (lines 21-35). *)
Record Hooks := {
  appState : AppState;
  captureMode : CaptureMode;
  currentFile : option ImageFile;
  editPrompt : string;
  editedImage : option string;
  error : option string;
  history : list HistoryItem;
  showHistory : bool;
  cameraError : bool;
  recordingTime : nat
}.

Definition h_appState (v : AppState) (x : Hooks) : Hooks :=
  {| appState := v; captureMode := captureMode x;
     currentFile := currentFile x; editPrompt := editPrompt x;
     editedImage := editedImage x; error := error x;
     history := history x; showHistory := showHistory x;
     cameraError := cameraError x; recordingTime := recordingTime x |}.

Definition h_captureMode (v : CaptureMode) (x : Hooks) : Hooks :=
  {| appState := appState x; captureMode := v;
     currentFile := currentFile x; editPrompt := editPrompt x;
     editedImage := editedImage x; error := error x;
     history := history x; showHistory := showHistory x;
     cameraError := cameraError x; recordingTime := recordingTime x |}.

Definition h_currentFile (v : option ImageFile) (x : Hooks) : Hooks :=
  {| appState := appState x; captureMode := captureMode x;
     currentFile := v; editPrompt := editPrompt x;
     editedImage := editedImage x; error := error x;
     history := history x; showHistory := showHistory x;
     cameraError := cameraError x; recordingTime := recordingTime x |}.

Definition h_editPrompt (v : string) (x : Hooks) : Hooks :=
  {| appState := appState x; captureMode := captureMode x;
     currentFile := currentFile x; editPrompt := v;
     editedImage := editedImage x; error := error x;
     history := history x; showHistory := showHistory x;
     cameraError := cameraError x; recordingTime := recordingTime x |}.

Definition h_editedImage (v : option string) (x : Hooks) : Hooks :=
  {| appState := appState x; captureMode := captureMode x;
     currentFile := currentFile x; editPrompt := editPrompt x;
     editedImage := v; error := error x; history := history x;
     showHistory := showHistory x; cameraError := cameraError x;
     recordingTime := recordingTime x |}.

Definition h_error (v : option string) (x : Hooks) : Hooks :=
  {| appState := appState x; captureMode := captureMode x;
     currentFile := currentFile x; editPrompt := editPrompt x;
     editedImage := editedImage x; error := v; history := history x;
     showHistory := showHistory x; cameraError := cameraError x;
     recordingTime := recordingTime x |}.

Definition h_history (v : list HistoryItem) (x : Hooks) : Hooks :=
  {| appState := appState x; captureMode := captureMode x;
     currentFile := currentFile x; editPrompt := editPrompt x;
     editedImage := editedImage x; error := error x; history := v;
     showHistory := showHistory x; cameraError := cameraError x;
     recordingTime := recordingTime x |}.

Definition h_showHistory (v : bool) (x : Hooks) : Hooks :=
  {| appState := appState x; captureMode := captureMode x;
     currentFile := currentFile x; editPrompt := editPrompt x;
     editedImage := editedImage x; error := error x;
     history := history x; showHistory := v;
     cameraError := cameraError x; recordingTime := recordingTime x |}.

Definition h_cameraError (v : bool) (x : Hooks) : Hooks :=
  {| appState := appState x; captureMode := captureMode x;
     currentFile := currentFile x; editPrompt := editPrompt x;
     editedImage := editedImage x; error := error x;
     history := history x; showHistory := showHistory x;
     cameraError := v; recordingTime := recordingTime x |}.

Definition h_recordingTime (v : nat) (x : Hooks) : Hooks :=
  {| appState := appState x; captureMode := captureMode x;
     currentFile := currentFile x; editPrompt := editPrompt x;
     editedImage := editedImage x; error := error x;
     history := history x; showHistory := showHistory x;
     cameraError := cameraError x; recordingTime := v |}.

(** [useRef] cells (lines 43-48).  [videoSrc] is
    [videoRef.current.srcObject]; [videoRef.current] itself is the video
    element, present exactly when the element is rendered (see
    [videoMounted]).  Streams, recorders and intervals are named by
    their number in order of creation; an interval handle is never 0,
    so a [timerRef] that is set is truthy. *)
Record Refs := {
  videoSrc : option nat;
  videoTrackRef : option nat;
  mediaRecorderRef : option nat;
  timerRef : option nat
}.

Definition r_videoSrc (v : option nat) (x : Refs) : Refs :=
  {| videoSrc := v; videoTrackRef := videoTrackRef x;
     mediaRecorderRef := mediaRecorderRef x; timerRef := timerRef x |}.

Definition r_videoTrackRef (v : option nat) (x : Refs) : Refs :=
  {| videoSrc := videoSrc x; videoTrackRef := v;
     mediaRecorderRef := mediaRecorderRef x; timerRef := timerRef x |}.

Definition r_mediaRecorderRef (v : option nat) (x : Refs) : Refs :=
  {| videoSrc := videoSrc x; videoTrackRef := videoTrackRef x;
     mediaRecorderRef := v; timerRef := timerRef x |}.

Definition r_timerRef (v : option nat) (x : Refs) : Refs :=
  {| videoSrc := videoSrc x; videoTrackRef := videoTrackRef x;
     mediaRecorderRef := mediaRecorderRef x; timerRef := v |}.

(** A promise the component is waiting on, with what the continuation's
    closure holds. *)
Inductive Task :=
| AwaitAnalyzeImage (file : ImageFile)      (* performAnalysis, line 288 *)
| AwaitAnalyzeVideoRec (file : ImageFile)   (* recorder.onstop, line 215 *)
| AwaitAnalyzeVideoFile (file : ImageFile)  (* handleFileSelect, line 269 *)
| AwaitEditImage                            (* handleEditSubmit, line 326 *)
| AwaitReadRecording                        (* recorder.onstop, line 199 *)
| AwaitReadFile (fileType : string)         (* handleFileSelect, line 252 *)
| AwaitGetUserMedia (inst : nat) (audio : bool). (* startCamera, line 76 *)

(** A request made to [services/geminiService]. *)
Inductive Call :=
| CallAnalyzeImage (payload : Js.str_or_undefined) (mime : string)
| CallAnalyzeVideo (payload : Js.str_or_undefined) (mime : string)
| CallEditImage (payload : Js.str_or_undefined) (mime : string) (prompt : string).

(** A [MediaStream] from [getUserMedia]: its video track and its audio
    track (requested in video mode only); [true] while the track is live. *)
Record Stream := {
  videoLive : bool;
  audioLive : bool
}.

(** A [MediaRecorder]: recording after [start()], stopping once [stop()]
    was called and [onstop] has not run yet, inactive afterwards. *)
Inductive Recorder := RecRecording | RecStopping | RecInactive.

Record Browser := {
  pending : list Task;
  calls : list Call;
  streams : list Stream;
  recorders : list Recorder;
  intervals : list bool;
  effectInst : nat;
  effectStream : option nat
}.

Definition b_pending (v : list Task) (x : Browser) : Browser :=
  {| pending := v; calls := calls x; streams := streams x;
     recorders := recorders x; intervals := intervals x;
     effectInst := effectInst x; effectStream := effectStream x |}.

Definition b_calls (v : list Call) (x : Browser) : Browser :=
  {| pending := pending x; calls := v; streams := streams x;
     recorders := recorders x; intervals := intervals x;
     effectInst := effectInst x; effectStream := effectStream x |}.

Definition b_streams (v : list Stream) (x : Browser) : Browser :=
  {| pending := pending x; calls := calls x; streams := v;
     recorders := recorders x; intervals := intervals x;
     effectInst := effectInst x; effectStream := effectStream x |}.

Definition b_recorders (v : list Recorder) (x : Browser) : Browser :=
  {| pending := pending x; calls := calls x; streams := streams x;
     recorders := v; intervals := intervals x;
     effectInst := effectInst x; effectStream := effectStream x |}.

Definition b_intervals (v : list bool) (x : Browser) : Browser :=
  {| pending := pending x; calls := calls x; streams := streams x;
     recorders := recorders x; intervals := v;
     effectInst := effectInst x; effectStream := effectStream x |}.

Definition b_effectInst (v : nat) (x : Browser) : Browser :=
  {| pending := pending x; calls := calls x; streams := streams x;
     recorders := recorders x; intervals := intervals x;
     effectInst := v; effectStream := effectStream x |}.

Definition b_effectStream (v : option nat) (x : Browser) : Browser :=
  {| pending := pending x; calls := calls x; streams := streams x;
     recorders := recorders x; intervals := intervals x;
     effectInst := effectInst x; effectStream := v |}.

Record State := {
  hooks : Hooks;
  refs : Refs;
  browser : Browser
}.

Definition with_hooks (v : Hooks) (x : State) : State :=
  {| hooks := v; refs := refs x; browser := browser x |}.

Definition with_refs (v : Refs) (x : State) : State :=
  {| hooks := hooks x; refs := v; browser := browser x |}.

Definition with_browser (v : Browser) (x : State) : State :=
  {| hooks := hooks x; refs := refs x; browser := v |}.


Definition on_hooks (f : Hooks -> Hooks) (s : State) : State :=
  with_hooks (f (hooks s)) s.

Definition on_refs (f : Refs -> Refs) (s : State) : State :=
  with_refs (f (refs s)) s.

Definition on_browser (f : Browser -> Browser) (s : State) : State :=
  with_browser (f (browser s)) s.

Definition setAppState (v : AppState) := on_hooks (h_appState v).
Definition setCaptureMode (v : CaptureMode) := on_hooks (h_captureMode v).
Definition setCurrentFile (v : option ImageFile) := on_hooks (h_currentFile v).
Definition setEditPrompt (v : string) := on_hooks (h_editPrompt v).
Definition setEditedImage (v : option string) := on_hooks (h_editedImage v).
Definition setError (v : option string) := on_hooks (h_error v).
Definition setShowHistory (v : bool) := on_hooks (h_showHistory v).
Definition setCameraError (v : bool) := on_hooks (h_cameraError v).

(** [setHistory(prev => f prev)] and [setRecordingTime(t => f t)]. *)
Definition setHistory (f : list HistoryItem -> list HistoryItem) :=
  on_hooks (fun h => h_history (f (history h)) h).
Definition setRecordingTime (f : nat -> nat) :=
  on_hooks (fun h => h_recordingTime (f (recordingTime h)) h).

(** Starting an asynchronous call: the request is logged and the
    continuation is queued behind the ones already waiting. *)
Definition await (t : Task) : State -> State :=
  on_browser (fun b => b_pending (pending b ++ [t]) b).

Definition request (c : Call) : State -> State :=
  on_browser (fun b => b_calls (calls b ++ [c]) b).

(** *** What is rendered (the JSX of lines 415-707) *)

(** Line 422: the camera screen. *)
Definition cameraScreen (s : State) : bool :=
  match appState (hooks s) with IDLE | RECORDING => true | _ => false end.

(** Lines 424-431: the [<video ref={videoRef}>] element. *)
Definition videoMounted (s : State) : bool :=
  cameraScreen s && negb (cameraError (hooks s)).

(** Line 542: the viewer. *)
Definition viewerScreen (s : State) : bool :=
  match appState (hooks s), currentFile (hooks s) with
  | (VIEWING | EDITING | ANALYZING), Some _ => true
  | _, _ => false
  end.

(** Line 610: the edit form is part of the viewer for image assets. *)
Definition editFormShown (s : State) : bool :=
  match appState (hooks s), currentFile (hooks s) with
  | (VIEWING | EDITING | ANALYZING), Some f =>
      match type f with image => true | video => false end
  | _, _ => false
  end.

(** Line 624: [disabled={!editPrompt.trim() || appState === EDITING}]. *)
Definition submitDisabled (s : State) : bool :=
  negb (Js.truthy (Js.trim (editPrompt (hooks s))))
  || AppState_eqb (appState (hooks s)) EDITING.

(** Line 620: the prompt input is disabled while editing. *)
Definition promptDisabled (s : State) : bool :=
  AppState_eqb (appState (hooks s)) EDITING.

(** Lines 572-576: the source of the media element of the viewer. *)
Definition displayed (s : State) : option string :=
  if viewerScreen s then
    match currentFile (hooks s) with
    | Some f =>
        match type f with
        | video => Some (preview f)
        | image => Some (Js.or_else (editedImage (hooks s)) (preview f))
        end
    | None => None
    end
  else None.

(** The camera or microphone is held while some track of some stream is
    live. *)
Definition cameraHeld (s : State) : bool :=
  existsb (fun m => videoLive m || audioLive m) (streams (browser s)).

(** Outstanding [editImage] calls. *)
Definition isEdit (t : Task) : bool :=
  match t with AwaitEditImage => true | _ => false end.

Definition outstandingEdits (s : State) : nat :=
  List.length (filter isEdit (pending (browser s))).

(** *** Small list operations *)

Fixpoint update_nth {A : Type} (i : nat) (f : A -> A) (l : list A) : list A :=
  match l, i with
  | [], _ => []
  | x :: r, 0 => f x :: r
  | x :: r, S j => x :: update_nth j f r
  end.

Fixpoint remove_nth {A : Type} (i : nat) (l : list A) : list A :=
  match l, i with
  | [], _ => []
  | _ :: r, 0 => r
  | x :: r, S j => x :: remove_nth j r
  end.

(** *** Results of asynchronous calls *)

Inductive Settled (A : Type) :=
| Resolved (a : A)
| Rejected.

Arguments Rejected {A}.

(** The two readings of [Date.now()] that build a new file. *)
Record Clock := {
  forId : N;
  forTimestamp : N
}.

Definition newFile (clock : Clock) (base64String mime : string) (ty : MediaType)
  : ImageFile :=
  {| id := Js.toString (forId clock);
     preview := base64String;
     raw := Js.after_comma base64String;
     mimeType := mime;
     timestamp := forTimestamp clock;
     type := ty;
     analysis := None |}.

(** ** The handlers of App.tsx *)

(** *** performAnalysis (lines 285-298) *)

Definition performAnalysis (file : ImageFile) (s : State) : State :=
  let s := setAppState ANALYZING s in
  let s := request (CallAnalyzeImage (raw file) (mimeType file)) s in
  await (AwaitAnalyzeImage file) s.

Definition performAnalysis_settled (file : ImageFile)
  (o : Settled AnalysisResult) (s : State) : State :=
  match o with
  | Resolved result =>
      let fileWithAnalysis := with_analysis file result in
      let s := setCurrentFile (Some fileWithAnalysis) s in
      let s := setHistory (HistoryStore.addToHistory fileWithAnalysis) s in
      setAppState VIEWING s
  | Rejected =>
      let s := setError (Some "Could not analyze image.") s in
      setAppState VIEWING s
  end.

(** *** capturePhoto (lines 160-184)

    [frame] is what the canvas gives: [None] when [getContext('2d')] is
    null, otherwise the data URL of [toDataURL('image/jpeg', 0.9)]. *)

Definition capturePhoto (clock : Clock) (frame : option string) (s : State)
  : State :=
  if negb (videoMounted s) then s
  else
    match frame with
    | None => s
    | Some base64String =>
        let file := newFile clock base64String "image/jpeg" image in
        let s := setCurrentFile (Some file) s in
        performAnalysis file s
    end.

(** *** startRecording, recorder.onstop, stopRecording (lines 186-241) *)

Definition startRecording (s : State) : State :=
  if negb (videoMounted s) then s
  else
    match videoSrc (refs s) with
    | None => s
    | Some _ =>
        let recorder := List.length (recorders (browser s)) in
        let timer := List.length (intervals (browser s)) in
        let s := on_browser (fun b => b_recorders (recorders b ++ [RecRecording]) b) s in
        let s := on_refs (r_mediaRecorderRef (Some recorder)) s in
        let s := setAppState RECORDING s in
        let s := setRecordingTime (fun _ => 0) s in
        let s := on_browser (fun b => b_intervals (intervals b ++ [true]) b) s in
        on_refs (r_timerRef (Some timer)) s
    end.

(** [recorder.stop()]: a recording recorder starts to flush. *)
Definition stopRecorder (r : Recorder) : Recorder :=
  match r with RecRecording => RecStopping | other => other end.

Definition clearInterval (t : nat) : State -> State :=
  on_browser (fun b => b_intervals (update_nth t (fun _ => false) (intervals b)) b).

Definition stopRecording (s : State) : State :=
  match mediaRecorderRef (refs s) with
  | Some recorder =>
      if AppState_eqb (appState (hooks s)) RECORDING then
        let s := on_browser
                   (fun b => b_recorders (update_nth recorder stopRecorder (recorders b)) b) s in
        match timerRef (refs s) with
        | Some t => clearInterval t s
        | None => s
        end
      else s
  | None => s
  end.

(** [recorder.onstop] up to its first [await] (lines 197-199): the
    handler builds the blob and waits for [blobToBase64]; it tests
    nothing. *)
Definition recorder_onstop (s : State) : State :=
  await AwaitReadRecording s.

(** The browser raises [stop] on a recorder that is recording or
    stopping, after [stop()] or by itself when the tracks of the stream
    end; the recorder is inactive from then on and raises it no more. *)
Definition fireStop (recorder : nat) (s : State) : State :=
  match nth_error (recorders (browser s)) recorder with
  | Some RecRecording | Some RecStopping =>
      let s := on_browser
                 (fun b => b_recorders (update_nth recorder (fun _ => RecInactive) (recorders b)) b) s in
      recorder_onstop s
  | _ => s
  end.

(** Lines 199-215; a rejected read leaves the handler's promise rejected
    and nothing else happens. *)
Definition readRecording_settled (o : Settled (Clock * string)) (s : State)
  : State :=
  match o with
  | Resolved (clock, base64String) =>
      let file := newFile clock base64String "video/webm" video in
      let s := setCurrentFile (Some file) s in
      let s := setAppState ANALYZING s in
      let s := request (CallAnalyzeVideo (raw file) (mimeType file)) s in
      await (AwaitAnalyzeVideoRec file) s
  | Rejected => s
  end.

(** Lines 215-223. *)
Definition recordingAnalysis_settled (file : ImageFile)
  (o : Settled AnalysisResult) (s : State) : State :=
  match o with
  | Resolved result =>
      let fileWithAnalysis := with_analysis file result in
      let s := setCurrentFile (Some fileWithAnalysis) s in
      let s := setHistory (HistoryStore.addToHistory fileWithAnalysis) s in
      setAppState VIEWING s
  | Rejected =>
      let s := setError (Some "Video analysis failed.") s in
      setAppState VIEWING s
  end.

(** *** handleCapture (lines 148-158) *)

Definition handleCapture (clock : Clock) (frame : option string) (s : State)
  : State :=
  match captureMode (hooks s) with
  | PHOTO => capturePhoto clock frame s
  | VIDEO =>
      match appState (hooks s) with
      | IDLE => startRecording s
      | RECORDING => stopRecording s
      | _ => s
      end
  end.

(** *** handleFileSelect (lines 243-283)

    [file] is [event.target.files?.[0]], given by its [type]. *)

Definition handleFileSelect (file : option string) (s : State) : State :=
  match file with
  | None => s
  | Some fileType =>
      let s := setEditedImage None s in
      let s := setEditPrompt "" s in
      let s := setError None s in
      await (AwaitReadFile fileType) s
  end.

Definition handleFileSelect_failed (s : State) : State :=
  let s := setError (Some "Failed to process file.") s in
  setAppState IDLE s.

Definition readFile_settled (fileType : string) (o : Settled (Clock * string))
  (s : State) : State :=
  match o with
  | Resolved (clock, base64String) =>
      let isVideo := Js.startsWith "video" fileType in
      let file := newFile clock base64String fileType
                    (if isVideo then video else image) in
      let s := setCurrentFile (Some file) s in
      if isVideo then
        let s := setAppState ANALYZING s in
        let s := request (CallAnalyzeVideo (raw file) (mimeType file)) s in
        await (AwaitAnalyzeVideoFile file) s
      else performAnalysis file s
  | Rejected => handleFileSelect_failed s
  end.

Definition fileAnalysis_settled (file : ImageFile)
  (o : Settled AnalysisResult) (s : State) : State :=
  match o with
  | Resolved result =>
      let fileWithAnalysis := with_analysis file result in
      let s := setCurrentFile (Some fileWithAnalysis) s in
      let s := setHistory (HistoryStore.addToHistory fileWithAnalysis) s in
      setAppState VIEWING s
  | Rejected => handleFileSelect_failed s
  end.

(** *** History and reset (lines 304-315, 400-407) *)

Definition deleteHistoryItem (target : string) : State -> State :=
  setHistory (HistoryStore.deleteHistoryItem target).

Definition restoreHistoryItem (item : HistoryItem) (s : State) : State :=
  let s := setCurrentFile (Some item) s in
  let s := setEditedImage None s in
  let s := setEditPrompt "" s in
  let s := setShowHistory false s in
  setAppState VIEWING s.

Definition resetApp (s : State) : State :=
  let s := setCurrentFile None s in
  let s := setEditedImage None s in
  let s := setEditPrompt "" s in
  let s := setAppState IDLE s in
  setRecordingTime (fun _ => 0) s.

(** *** handleEditSubmit (lines 317-341) *)

Definition editMime : string := "image/png".

Definition dataUrlPrefix : string := "data:image/png;base64,".

(** Line 325. *)
Definition sourceImageRaw (edited : option string) (file : ImageFile)
  : Js.str_or_undefined :=
  match edited with
  | Some e => if Js.truthy e then Js.after_comma e else raw file
  | None => raw file
  end.

Definition handleEditSubmit (s : State) : State :=
  match currentFile (hooks s) with
  | None => s
  | Some file =>
      if negb (Js.truthy (Js.trim (editPrompt (hooks s)))) then s
      else
        match type file with
        | video => s
        | image =>
            let source := sourceImageRaw (editedImage (hooks s)) file in
            let prompt := editPrompt (hooks s) in
            let s := setAppState EDITING s in
            let s := setError None s in
            let s := request (CallEditImage source editMime prompt) s in
            await AwaitEditImage s
        end
  end.

Definition handleEditSubmit_settled (o : Settled EditResult) (s : State)
  : State :=
  let s :=
    match o with
    | Resolved result =>
        match imageData result with
        | Some data =>
            if Js.truthy data then
              let s := setEditedImage (Some (String.append dataUrlPrefix data)) s in
              setEditPrompt "" s
            else if Js.truthy_opt (textResponse result) then
              setError (textResponse result) s
            else setError (Some "No changes generated.") s
        | None =>
            if Js.truthy_opt (textResponse result) then
              setError (textResponse result) s
            else setError (Some "No changes generated.") s
        end
    | Rejected => setError (Some "Failed to edit image.") s
    end in
  setAppState VIEWING s.

(** *** Camera management (the effect of lines 68-130)

    Every run of the effect has its own [stream] variable.  [effectInst]
    numbers the runs and [effectStream] is the variable of the latest
    run; a [getUserMedia] promise that resolves for an earlier run
    assigns the variable of a closure whose cleanup has already run. *)

Definition stopTracks (n : nat) : State -> State :=
  on_browser (fun b =>
    b_streams (update_nth n (fun _ => {| videoLive := false; audioLive := false |})
                 (streams b)) b).

Definition stopVideoTrack (n : nat) : State -> State :=
  on_browser (fun b =>
    b_streams (update_nth n (fun m => {| videoLive := false; audioLive := audioLive m |})
                 (streams b)) b).

(** Lines 114-119 and 123-128 read alike: stop the tracks of [stream],
    then the track of [videoTrackRef]. *)
Definition stopCamera (stream : option nat) (s : State) : State :=
  let s := match stream with Some n => stopTracks n s | None => s end in
  match videoTrackRef (refs s) with
  | Some n => stopVideoTrack n s
  | None => s
  end.

Definition cameraCleanup (s : State) : State :=
  stopCamera (effectStream (browser s)) s.

(** Lines 71-85, up to the [await]. *)
Definition startCamera (s : State) : State :=
  match appState (hooks s) with
  | IDLE | RECORDING =>
      let s := setCameraError false s in
      await (AwaitGetUserMedia (effectInst (browser s))
               (CaptureMode_eqb (captureMode (hooks s)) VIDEO)) s
  | _ => s
  end.

(** Lines 87-108. *)
Definition startCamera_settled (inst : nat) (audio : bool) (o : Settled unit)
  (s : State) : State :=
  match o with
  | Resolved _ =>
      let stream := List.length (streams (browser s)) in
      let s := on_browser (fun b =>
                 b_streams (streams b ++ [{| videoLive := true; audioLive := audio |}]) b) s in
      let s := if Nat.eqb inst (effectInst (browser s))
               then on_browser (b_effectStream (Some stream)) s
               else s in
      let s := if videoMounted s then on_refs (r_videoSrc (Some stream)) s else s in
      on_refs (r_videoTrackRef (Some stream)) s
  | Rejected => setCameraError true s
  end.

(** Lines 69 and 111-120: a new run of the effect. *)
Definition cameraEffect (s : State) : State :=
  let s := on_browser (fun b => b_effectStream None (b_effectInst (S (effectInst b)) b)) s in
  match appState (hooks s) with
  | IDLE => startCamera s
  | _ => stopCamera None s
  end.

(** ** Rendering and events *)

(** After a handler has run React renders and runs the effects whose
    dependencies changed: a video element that is no longer rendered is
    dropped together with its [srcObject]; when [appState] or
    [captureMode] changed the camera effect is cleaned up and run again. *)
Definition commit (before after : State) : State :=
  let after := if videoMounted after then after
               else on_refs (r_videoSrc None) after in
  if AppState_eqb (appState (hooks before)) (appState (hooks after))
     && CaptureMode_eqb (captureMode (hooks before)) (captureMode (hooks after))
  then after
  else cameraEffect (cameraCleanup after).

Definition initial (saved : list HistoryItem) : State :=
  {| hooks := {| appState := IDLE; captureMode := PHOTO; currentFile := None;
                 editPrompt := ""; editedImage := None; error := None;
                 history := saved; showHistory := false;
                 cameraError := false; recordingTime := 0 |};
     refs := {| videoSrc := None; videoTrackRef := None;
                mediaRecorderRef := None; timerRef := None |};
     browser := {| pending := []; calls := []; streams := []; recorders := [];
                   intervals := []; effectInst := 0; effectStream := None |} |}.

(** The component after its first render and its mount effects, with the
    history the load effect found. *)
Definition mount (saved : list HistoryItem) : State :=
  cameraEffect (initial saved).

(** What a promise settles with. *)
Inductive Reply :=
| ReplyAnalysis (result : AnalysisResult)
| ReplyEdit (result : EditResult)
| ReplyData (clock : Clock) (dataUrl : string)
| ReplyGranted
| ReplyFailure.

(** The continuation of a task for a reply of its kind. *)
Definition continuation (t : Task) (r : Reply) : option (State -> State) :=
  match t, r with
  | AwaitAnalyzeImage file, ReplyAnalysis a =>
      Some (performAnalysis_settled file (Resolved a))
  | AwaitAnalyzeImage file, ReplyFailure =>
      Some (performAnalysis_settled file Rejected)
  | AwaitAnalyzeVideoRec file, ReplyAnalysis a =>
      Some (recordingAnalysis_settled file (Resolved a))
  | AwaitAnalyzeVideoRec file, ReplyFailure =>
      Some (recordingAnalysis_settled file Rejected)
  | AwaitAnalyzeVideoFile file, ReplyAnalysis a =>
      Some (fileAnalysis_settled file (Resolved a))
  | AwaitAnalyzeVideoFile file, ReplyFailure =>
      Some (fileAnalysis_settled file Rejected)
  | AwaitEditImage, ReplyEdit e => Some (handleEditSubmit_settled (Resolved e))
  | AwaitEditImage, ReplyFailure => Some (handleEditSubmit_settled Rejected)
  | AwaitReadRecording, ReplyData clock url =>
      Some (readRecording_settled (Resolved (clock, url)))
  | AwaitReadRecording, ReplyFailure => Some (readRecording_settled Rejected)
  | AwaitReadFile ty, ReplyData clock url =>
      Some (readFile_settled ty (Resolved (clock, url)))
  | AwaitReadFile ty, ReplyFailure => Some (readFile_settled ty Rejected)
  | AwaitGetUserMedia inst audio, ReplyGranted =>
      Some (startCamera_settled inst audio (Resolved tt))
  | AwaitGetUserMedia inst audio, ReplyFailure =>
      Some (startCamera_settled inst audio Rejected)
  | _, _ => None
  end.

(** The [i]-th outstanding promise settles: it leaves the queue and its
    continuation runs.  A reply of the wrong kind, or for no task, is not
    an event of the system. *)
Definition settle (i : nat) (r : Reply) (s : State) : State :=
  match nth_error (pending (browser s)) i with
  | Some t =>
      match continuation t r with
      | Some k => k (on_browser (fun b => b_pending (remove_nth i (pending b)) b) s)
      | None => s
      end
  | None => s
  end.

(** What the user and the browser can do. *)
Inductive Event :=
| ClickMode (m : CaptureMode)                       (* lines 484-495 *)
| ClickCapture (clock : Clock) (frame : option string) (* line 525 *)
| ChangeFile (file : option string)                 (* line 417 *)
| ClickCamera                                       (* line 545: resetApp *)
| ClickUndoEdit                                     (* line 559 *)
| TypePrompt (text : string)                        (* line 617 *)
| SubmitEdit                                        (* line 612 *)
| ClickHistory                                      (* line 461 *)
| CloseHistory                                      (* lines 638, 645 *)
| ClickHistoryItem (i : nat)                        (* line 657 *)
| ClickDelete (i : nat)                             (* line 672 *)
| Tick (timer : nat)                                (* line 231 *)
| RecorderStopped (recorder : nat)                  (* line 197 *)
| Settle (i : nat) (r : Reply).

(** An event reaches its handler only through a control that is rendered
    and enabled; otherwise nothing happens. *)
Definition dispatch (e : Event) (s : State) : State :=
  match e with
  | ClickMode m => if cameraScreen s then setCaptureMode m s else s
  | ClickCapture clock frame =>
      if cameraScreen s && negb (cameraError (hooks s))
      then handleCapture clock frame s else s
  | ChangeFile file => handleFileSelect file s
  | ClickCamera => if viewerScreen s then resetApp s else s
  | ClickUndoEdit =>
      if viewerScreen s && Js.truthy_opt (editedImage (hooks s))
      then setEditedImage None s else s
  | TypePrompt text =>
      if editFormShown s && negb (promptDisabled s)
      then setEditPrompt text s else s
  | SubmitEdit =>
      if editFormShown s && negb (submitDisabled s)
      then handleEditSubmit s else s
  | ClickHistory => if cameraScreen s then setShowHistory true s else s
  | CloseHistory => if showHistory (hooks s) then setShowHistory false s else s
  | ClickHistoryItem i =>
      if showHistory (hooks s) then
        match nth_error (history (hooks s)) i with
        | Some item => restoreHistoryItem item s
        | None => s
        end
      else s
  | ClickDelete i =>
      if showHistory (hooks s) then
        match nth_error (history (hooks s)) i with
        | Some item => deleteHistoryItem (id item) s
        | None => s
        end
      else s
  | Tick timer =>
      match nth_error (intervals (browser s)) timer with
      | Some true => setRecordingTime S s
      | _ => s
      end
  | RecorderStopped recorder => fireStop recorder s
  | Settle i r => settle i r s
  end.

Definition step (s : State) (e : Event) : State :=
  commit s (dispatch e s).

Definition run (s : State) (es : list Event) : State :=
  fold_left step es s.

(** ** The claims as the specification words them, where the code differs *)

(** "At most one edit call is ever outstanding." *)
Definition atMostOneEditOutstanding (s : State) : Prop :=
  outstandingEdits s <= 1.




(** A settlement that only reports: the state is [VIEWING], the message
    is in [error], and the file, the edited image and what the viewer
    shows are the ones from before. *)
Definition reportsOnly (before after : State) (message : string) : Prop :=
  appState (hooks after) = VIEWING
  /\ error (hooks after) = Some message
  /\ currentFile (hooks after) = currentFile (hooks before)
  /\ editedImage (hooks after) = editedImage (hooks before)
  /\ (viewerScreen before = true -> displayed after = displayed before).

(** The edit that made [edited] the edited image: the reply of an
    outstanding [editImage] call, carrying image data. *)
Definition acceptedEdit (s : State) (e : Event) (edited : option string) : Prop :=
  exists i result data,
    e = Settle i (ReplyEdit result)
    /\ nth_error (pending (browser s)) i = Some AwaitEditImage
    /\ imageData result = Some data
    /\ Js.truthy data = true
    /\ edited = Some (String.append dataUrlPrefix data).

(** The file an analysis task is about. *)
Definition analysedFile (t : Task) : option ImageFile :=
  match t with
  | AwaitAnalyzeImage file
  | AwaitAnalyzeVideoRec file
  | AwaitAnalyzeVideoFile file => Some file
  | _ => None
  end.

(** The commit of an analysed capture: the successful reply of an
    outstanding analysis call puts the analysed file into the history. *)
Definition historyCommit (s : State) (e : Event) (after : list HistoryItem) : Prop :=
  exists i result file t,
    e = Settle i (ReplyAnalysis result)
    /\ nth_error (pending (browser s)) i = Some t
    /\ analysedFile t = Some file
    /\ after = HistoryStore.addToHistory (with_analysis file result)
                 (history (hooks s)).

(** The request of an edit declares [image/png]. *)
Definition declaresPng (c : Call) : Prop :=
  match c with
  | CallEditImage _ mime _ => mime = "image/png"
  | _ => True
  end.

(** "For every persisted payload load yields a sequence": the parsed
    one when the text parses, the empty one otherwise. *)
Definition loadYieldsSequence (parse : string -> option JsonValue)
  (saved : option string) : Prop :=
  exists items, HistoryStore.load parse saved = JsonRecords items.

(** ** Sample inputs *)

Module Sample.

Definition clock : Clock :=
  {| forId := 1700000000000%N; forTimestamp := 1700000000001%N |}.

Definition frame : string := "data:image/jpeg;base64,AAAA".

Definition insight : AnalysisResult :=
  {| description := Some "a cat"; points := Some ["one"; "two"] |}.

Definition photo : ImageFile := newFile clock frame "image/jpeg" image.

Definition edited : EditResult :=
  {| imageData := Some "BBBB"; textResponse := None |}.

Definition refusal : EditResult :=
  {| imageData := None; textResponse := Some "I cannot do that." |}.

(** A text between double quotes. *)
Definition quoted (text : string) : string :=
  String (ascii_of_nat 34) (String.append text (String (ascii_of_nat 34) EmptyString)).

(** What the save effect writes for a history of the analysed photo. *)
Definition storedPhoto : string :=
  String.concat ""
    ["[{"; quoted "id"; ":"; quoted "1700000000000"; ",";
     quoted "preview"; ":"; quoted "data:image/jpeg;base64,AAAA"; ",";
     quoted "raw"; ":"; quoted "AAAA"; ",";
     quoted "mimeType"; ":"; quoted "image/jpeg"; ",";
     quoted "timestamp"; ":1700000000001,";
     quoted "type"; ":"; quoted "image"; ",";
     quoted "analysis"; ":{"; quoted "description"; ":"; quoted "a cat"; ",";
     quoted "points"; ":["; quoted "one"; ","; quoted "two"; "]}}]"].

(** [JSON.parse] on five texts: the empty array, the stored photo,
    [null], the empty object, and everything else taken as not JSON (as
    the empty string and a cut-off object are). *)
Definition parse (text : string) : option JsonValue :=
  if String.eqb text "[]" then Some (JsonRecords [])
  else if String.eqb text storedPhoto
       then Some (JsonRecords [with_analysis photo insight])
  else if String.eqb text "null" then Some JsonNull
  else if String.eqb text "{}" then Some JsonOther
  else None.

(** The camera is granted, a photo is taken and analysed. *)
Definition photoTaken : list Event :=
  [Settle 0 ReplyGranted; ClickCapture clock (Some frame)].

Definition photoAnalysed : list Event :=
  photoTaken ++ [Settle 0 (ReplyAnalysis insight)].

Definition viewing : State := run (mount []) photoAnalysed.

Definition analysing : State := run (mount []) photoTaken.

(** An edit is submitted and is outstanding. *)
Definition editing : State :=
  run viewing [TypePrompt "make it blue"; SubmitEdit].

(** The edit was accepted. *)
Definition editedOnce : State :=
  run editing [Settle 0 (ReplyEdit edited)].

(** The user leaves the viewer while the edit is outstanding, restores the
    photo from the history and submits another edit. *)
Definition overlappingEdits : list Event :=
  photoAnalysed ++
  [TypePrompt "make it blue"; SubmitEdit; ClickCamera; ClickHistory;
   ClickHistoryItem 0; TypePrompt "add a hat"; SubmitEdit].

(** Video mode with the camera granted. *)
Definition videoReady : State :=
  run (mount []) [Settle 0 ReplyGranted; ClickMode VIDEO; Settle 0 ReplyGranted].

(** The capture button is pressed in video mode. *)
Definition recording : State := step videoReady (ClickCapture clock None).

(** The history list is open over the camera screen. *)
Definition browsing : State := run viewing [ClickCamera; ClickHistory].

End Sample.

(** ** The rest of the component *)

From Stdlib Require DecimalN DecimalPos.

(** [s.padStart(n, c)] for a pad of one character. *)
Definition padStart (n : nat) (c : ascii) (s : string) : string :=
  String.append (string_of_list_ascii (repeat c (n - String.length s))) s.

(** formatTime (lines 409-413), on the whole seconds [recordingTime]
    counts. *)
Definition formatTime (seconds : nat) : string :=
  let m := seconds / 60 in
  let s := seconds mod 60 in
  String.append (Js.toString (N.of_nat m))
    (String ":" (padStart 2 "0" (Js.toString (N.of_nat s)))).

(** A string of white space only (the empty string included). *)
Definition blank (s : string) : bool := Js.blank s.

(** A stream without a live track. *)
Definition stopped : Stream := {| videoLive := false; audioLive := false |}.

(** The microphone track of stream [n] is live and the stream is not the
    one the camera effect holds. *)
Definition micLeaked (n : nat) (s : State) : Prop :=
  (exists m, nth_error (streams (browser s)) n = Some m /\ audioLive m = true)
  /\ effectStream (browser s) <> Some n.

(** The events of the edit form and the undo button. *)
Definition isEditEvent (e : Event) : bool :=
  match e with
  | TypePrompt _ | SubmitEdit | ClickUndoEdit | Settle _ (ReplyEdit _) => true
  | _ => false
  end.

(** The events a rendered control raises (the others come from the
    browser: the file input, timers, recorders and promises). *)
Definition isControl (e : Event) : bool :=
  match e with
  | ClickMode _ | ClickCapture _ _ | ClickCamera | ClickUndoEdit
  | TypePrompt _ | SubmitEdit | ClickHistory | CloseHistory
  | ClickHistoryItem _ | ClickDelete _ => true
  | _ => false
  end.

(** A reply to [editImage] that carries no image. *)
Definition withoutImage (r : Reply) : bool :=
  match r with
  | ReplyEdit result => negb (Js.truthy_opt (imageData result))
  | ReplyFailure => true
  | _ => false
  end.

(** ** More sample inputs *)

Module Scenario.

Definition clip : string := "data:video/webm;base64,CCCC".

Definition later : Clock :=
  {| forId := 1700000000002%N; forTimestamp := 1700000000003%N |}.

(** The capture button is pressed again while recording. *)
Definition stopping : State := step Sample.recording (ClickCapture Sample.clock None).

(** The recorder has flushed and its [onstop] handler reads the clip. *)
Definition flushed : State := step stopping (RecorderStopped 0).

(** The clip is read and its analysis is outstanding. *)
Definition recorded : State := step flushed (Settle 0 (ReplyData later clip)).

(** Video mode is chosen and photo mode again before the camera answers;
    then the request made for video mode is granted. *)
Definition lateGrant : State :=
  run (mount []) [ClickMode VIDEO; ClickMode PHOTO; Settle 1 ReplyGranted].

(** A prompt of one no-break space (U+00A0). *)
Definition noBreakSpace : string :=
  String (ascii_of_nat 194) (String (ascii_of_nat 160) EmptyString).

(** The browser ends the recording by itself. *)
Definition endedByBrowser : State := step Sample.recording (RecorderStopped 0).

(** An edit fails after the user went back to the camera. *)
Definition orphaned : State :=
  run Sample.editing [ClickCamera; Settle 0 ReplyFailure].

End Scenario.

(** * Properties *)

(** ** JavaScript strings *)

Lemma split_lacks (c : ascii) (s : string) :
  Js.lacks c s = true -> Js.split c s = [s].
Proof.
  induction s as [|a r IH]; simpl; intros H.
  - reflexivity.
  - apply andb_prop in H as [Ha Hr].
    apply negb_true_iff in Ha. rewrite Ha, (IH Hr). reflexivity.
Qed.

Lemma split_at_first (c : ascii) (p r : string) :
  Js.lacks c p = true ->
  Js.split c (String.append p (String c r)) = p :: Js.split c r.
Proof.
  induction p as [|a p IH]; simpl; intros H.
  - rewrite Ascii.eqb_refl. reflexivity.
  - apply andb_prop in H as [Ha Hp].
    apply negb_true_iff in Ha. rewrite Ha, (IH Hp). reflexivity.
Qed.

(** The payload of a data URL built at line 329 is what follows its comma,
    up to the next one. *)
Lemma after_comma_dataUrl (data : string) :
  Js.after_comma (String.append dataUrlPrefix data)
  = hd_error (Js.split "," data).
Proof.
  unfold Js.after_comma.
  change (String.append dataUrlPrefix data)
    with (String.append "data:image/png;base64" (String "," data)).
  rewrite split_at_first by reflexivity.
  destruct (Js.split "," data); reflexivity.
Qed.

Lemma after_comma_base64 (data : string) :
  Js.lacks "," data = true ->
  Js.after_comma (String.append dataUrlPrefix data) = Some data.
Proof.
  intros H. rewrite after_comma_dataUrl, (split_lacks _ _ H). reflexivity.
Qed.

Lemma dataUrl_truthy (data : string) :
  Js.truthy (String.append dataUrlPrefix data) = true.
Proof. reflexivity. Qed.

(** ** The history store *)

Lemma firstn_removelast {A : Type} (l : list A) (n : nat) :
  List.length l = S n -> firstn n l = removelast l.
Proof.
  revert n. induction l as [|x l IH]; intros n H; [discriminate|].
  destruct l as [|y l].
  - simpl in H. injection H as <-. reflexivity.
  - destruct n as [|n]; [discriminate|].
    change (x :: firstn n (y :: l) = x :: removelast (y :: l)).
    f_equal. apply IH. simpl in H |- *. lia.
Qed.

(** C2.  For every history list and every record, [addToHistory] puts the
    record at the front, keeps the order of what it keeps, and returns at
    most 50 entries: a list of fewer than 50 entries is kept whole, and
    from a list of 50 entries the last (the oldest) one is dropped. *)
Theorem addToHistory_front_bounded (item : HistoryItem) (prev : list HistoryItem) :
  HistoryStore.addToHistory item prev = item :: firstn 49 prev
  /\ List.length (HistoryStore.addToHistory item prev)
     = Nat.min 50 (S (List.length prev))
  /\ List.length (HistoryStore.addToHistory item prev) <= 50
  /\ (List.length prev < 50 ->
      HistoryStore.addToHistory item prev = item :: prev)
  /\ (List.length prev = 50 ->
      HistoryStore.addToHistory item prev = item :: removelast prev).
Proof.
  unfold HistoryStore.addToHistory, HistoryStore.bound.
  change (firstn 50 (item :: prev)) with (item :: firstn 49 prev).
  assert (Hlen : List.length (item :: firstn 49 prev)
                 = Nat.min 50 (S (List.length prev))).
  { cbn [List.length]. rewrite length_firstn. lia. }
  split; [reflexivity|]. split; [exact Hlen|]. split; [lia|]. split.
  - intros H. f_equal. apply firstn_all2. lia.
  - intros H. f_equal. apply firstn_removelast. exact H.
Qed.

Lemma addToHistory_front_bounded_witness :
  HistoryStore.addToHistory Sample.photo (repeat (with_analysis Sample.photo Sample.insight) 50)
  = Sample.photo :: removelast (repeat (with_analysis Sample.photo Sample.insight) 50).
Proof.
  apply (addToHistory_front_bounded Sample.photo
           (repeat (with_analysis Sample.photo Sample.insight) 50)).
  reflexivity.
Defined.

(** C7, as stated, fails: a persisted text that parses to something
    other than an array ([null], an object) is made the history as it is,
    and that is no sequence of records. *)
Lemma load_keeps_a_parsed_non_array :
  HistoryStore.load Sample.parse (Some "null") = JsonNull
  /\ asRecords (HistoryStore.load Sample.parse (Some "null")) = None
  /\ asRecords (HistoryStore.load Sample.parse (Some "{}")) = None
  /\ ~ loadYieldsSequence Sample.parse (Some "null").
Proof.
  repeat split. intros [items H]. discriminate H.
Qed.

Section LoadSpec.

Variable JSON_parse : string -> option JsonValue.

(** The empty string is not JSON. *)
Hypothesis JSON_parse_empty : JSON_parse "" = None.

(** C7, amended.  The load effect yields the parsed value when the
    persisted text parses: the parsed sequence of records when the value
    is an array of records, and otherwise the value as it is, unchecked.
    It yields the empty history when nothing is persisted or the text
    does not parse; it has a value in every case. *)
Theorem load_parsed_or_empty :
  HistoryStore.load JSON_parse None = JsonRecords []
  /\ (forall text parsed,
        JSON_parse text = Some (JsonRecords parsed) ->
        HistoryStore.load JSON_parse (Some text) = JsonRecords parsed
        /\ asRecords (HistoryStore.load JSON_parse (Some text)) = Some parsed)
  /\ (forall text value,
        JSON_parse text = Some value ->
        HistoryStore.load JSON_parse (Some text) = value)
  /\ (forall text,
        JSON_parse text = None ->
        HistoryStore.load JSON_parse (Some text) = JsonRecords []
        /\ asRecords (HistoryStore.load JSON_parse (Some text)) = Some []).
Proof.
  assert (Hval : forall text value,
             JSON_parse text = Some value ->
             HistoryStore.load JSON_parse (Some text) = value).
  { intros text value H. unfold HistoryStore.load.
    destruct text as [|a r]; [congruence|]. simpl. rewrite H. reflexivity. }
  split; [reflexivity|]. split; [|split; [exact Hval|]].
  - intros text parsed H. rewrite (Hval _ _ H). split; reflexivity.
  - intros text H. unfold HistoryStore.load.
    destruct (Js.truthy text); [rewrite H|]; split; reflexivity.
Qed.

End LoadSpec.

Lemma load_parsed_or_empty_witness :
  HistoryStore.load Sample.parse None = JsonRecords []
  /\ HistoryStore.load Sample.parse (Some Sample.storedPhoto)
     = JsonRecords [with_analysis Sample.photo Sample.insight]
  /\ HistoryStore.load Sample.parse (Some "{}") = JsonOther
  /\ HistoryStore.load Sample.parse (Some "{oops") = JsonRecords [].
Proof.
  destruct (load_parsed_or_empty Sample.parse eq_refl) as (H0 & H1 & H2 & H3).
  split; [exact H0|]. split; [|split].
  - apply (H1 Sample.storedPhoto [with_analysis Sample.photo Sample.insight]).
    reflexivity.
  - apply H2. reflexivity.
  - apply H3. reflexivity.
Defined.

(** ** Rendering leaves the state cells alone *)

Ltac break_match :=
  match goal with
  | |- context [match ?x with _ => _ end] => destruct x eqn:?
  end.

Ltac unfold_setters :=
  unfold setAppState, setCaptureMode, setCurrentFile, setEditPrompt,
    setEditedImage, setError, setShowHistory, setCameraError, setHistory,
    setRecordingTime, await, request, clearInterval, stopTracks,
    stopVideoTrack, on_hooks, on_refs, on_browser in *.

Lemma hooks_stopCamera (o : option nat) (s : State) :
  hooks (stopCamera o s) = hooks s.
Proof.
  unfold stopCamera; unfold_setters.
  destruct o; simpl; break_match; reflexivity.
Qed.

Lemma hooks_cameraEffect (s : State) :
  hooks (cameraEffect s) = hooks s
  \/ (appState (hooks s) = IDLE
      /\ hooks (cameraEffect s) = h_cameraError false (hooks s)).
Proof.
  unfold cameraEffect, startCamera; unfold_setters; simpl.
  destruct (appState (hooks s)) eqn:E; simpl;
    try rewrite E; simpl; auto;
    left; rewrite hooks_stopCamera; reflexivity.
Qed.

Lemma hooks_commit (a b : State) :
  hooks (commit a b) = hooks b
  \/ (appState (hooks b) = IDLE
      /\ hooks (commit a b) = h_cameraError false (hooks b)).
Proof.
  unfold commit.
  set (b' := if videoMounted b then b else on_refs (r_videoSrc None) b).
  assert (Hb : hooks b' = hooks b) by (subst b'; destruct (videoMounted b); reflexivity).
  rewrite Hb.
  destruct (AppState_eqb _ _ && CaptureMode_eqb _ _); [left; exact Hb|].
  destruct (hooks_cameraEffect (cameraCleanup b')) as [H | [Hi H]];
    unfold cameraCleanup in *; rewrite hooks_stopCamera in *; rewrite Hb in *;
    [left | right]; auto.
Qed.

(** Every cell but [cameraError] is read off the state the handler left. *)
Lemma commit_cell {A : Type} (cell : Hooks -> A) (a b : State) :
  (forall h, cell (h_cameraError false h) = cell h) ->
  cell (hooks (commit a b)) = cell (hooks b).
Proof.
  intros Hcell. destruct (hooks_commit a b) as [H | [_ H]]; rewrite H; auto.
Qed.

Lemma appState_commit a b : appState (hooks (commit a b)) = appState (hooks b).
Proof. apply (commit_cell appState); reflexivity. Qed.

Lemma currentFile_commit a b : currentFile (hooks (commit a b)) = currentFile (hooks b).
Proof. apply (commit_cell currentFile); reflexivity. Qed.

Lemma editedImage_commit a b : editedImage (hooks (commit a b)) = editedImage (hooks b).
Proof. apply (commit_cell editedImage); reflexivity. Qed.

Lemma editPrompt_commit a b : editPrompt (hooks (commit a b)) = editPrompt (hooks b).
Proof. apply (commit_cell editPrompt); reflexivity. Qed.

Lemma error_commit a b : error (hooks (commit a b)) = error (hooks b).
Proof. apply (commit_cell error); reflexivity. Qed.

Lemma history_commit a b : history (hooks (commit a b)) = history (hooks b).
Proof. apply (commit_cell history); reflexivity. Qed.

Lemma viewerScreen_commit a b : viewerScreen (commit a b) = viewerScreen b.
Proof.
  unfold viewerScreen. rewrite appState_commit, currentFile_commit. reflexivity.
Qed.

Lemma displayed_commit a b : displayed (commit a b) = displayed b.
Proof.
  unfold displayed.
  rewrite viewerScreen_commit, currentFile_commit, editedImage_commit.
  reflexivity.
Qed.

(** Rendering makes no request; it queues a camera request only when the
    camera effect runs in [IDLE]. *)
Lemma calls_stopCamera o s : calls (browser (stopCamera o s)) = calls (browser s).
Proof.
  unfold stopCamera; unfold_setters.
  destruct o; simpl; break_match; reflexivity.
Qed.

Lemma pending_stopCamera o s : pending (browser (stopCamera o s)) = pending (browser s).
Proof.
  unfold stopCamera; unfold_setters.
  destruct o; simpl; break_match; reflexivity.
Qed.

Lemma calls_cameraEffect s : calls (browser (cameraEffect s)) = calls (browser s).
Proof.
  unfold cameraEffect, startCamera; unfold_setters; simpl.
  destruct (appState (hooks s)) eqn:E; simpl; try rewrite E; simpl;
    try rewrite calls_stopCamera; reflexivity.
Qed.

Lemma calls_commit a b : calls (browser (commit a b)) = calls (browser b).
Proof.
  unfold commit.
  set (b' := if videoMounted b then b else on_refs (r_videoSrc None) b).
  assert (Hb : calls (browser b') = calls (browser b))
    by (subst b'; destruct (videoMounted b); reflexivity).
  destruct (AppState_eqb _ _ && CaptureMode_eqb _ _); [exact Hb|].
  unfold cameraCleanup. rewrite calls_cameraEffect, calls_stopCamera. exact Hb.
Qed.

Lemma pending_cameraEffect s :
  appState (hooks s) <> IDLE ->
  pending (browser (cameraEffect s)) = pending (browser s).
Proof.
  intros H. unfold cameraEffect; unfold_setters; simpl.
  destruct (appState (hooks s)) eqn:E; try congruence;
    rewrite pending_stopCamera; reflexivity.
Qed.

(** Outside [IDLE] rendering queues nothing. *)
Lemma pending_commit a b :
  appState (hooks b) <> IDLE ->
  pending (browser (commit a b)) = pending (browser b).
Proof.
  intros H. unfold commit.
  set (b' := if videoMounted b then b else on_refs (r_videoSrc None) b).
  assert (Hb : pending (browser b') = pending (browser b))
    by (subst b'; destruct (videoMounted b); reflexivity).
  assert (Hh : hooks b' = hooks b)
    by (subst b'; destruct (videoMounted b); reflexivity).
  destruct (AppState_eqb _ _ && CaptureMode_eqb _ _); [exact Hb|].
  unfold cameraCleanup. rewrite pending_cameraEffect, pending_stopCamera; auto.
  rewrite hooks_stopCamera, Hh. exact H.
Qed.

(** A camera request is the only thing rendering ever queues. *)
Lemma edits_commit a b : outstandingEdits (commit a b) = outstandingEdits b.
Proof.
  unfold outstandingEdits, commit.
  set (b' := if videoMounted b then b else on_refs (r_videoSrc None) b).
  assert (Hb : pending (browser b') = pending (browser b))
    by (subst b'; destruct (videoMounted b); reflexivity).
  destruct (AppState_eqb _ _ && CaptureMode_eqb _ _); [rewrite Hb; reflexivity|].
  unfold cameraEffect, startCamera, cameraCleanup; unfold_setters; simpl.
  rewrite hooks_stopCamera.
  destruct (appState (hooks b')) eqn:E; simpl; try rewrite E; simpl;
    try rewrite pending_stopCamera; simpl;
    try rewrite filter_app; simpl; try rewrite app_nil_r;
    rewrite ?pending_stopCamera, Hb; reflexivity.
Qed.

(** ** Analysis *)

Lemma settle_continues (s : State) (i : nat) (t : Task) (r : Reply)
  (k : State -> State) :
  nth_error (pending (browser s)) i = Some t ->
  continuation t r = Some k ->
  step s (Settle i r)
  = commit s (k (on_browser (fun b => b_pending (remove_nth i (pending b)) b) s)).
Proof.
  intros Ht Hk. unfold step, dispatch, settle. rewrite Ht, Hk. reflexivity.
Qed.

(** The file [{ ...file, analysis: result }] carries the result and is
    the given file in every other field. *)
Lemma with_analysis_attaches (file : ImageFile) (result : AnalysisResult) :
  analysis (with_analysis file result) = Some result
  /\ id (with_analysis file result) = id file
  /\ preview (with_analysis file result) = preview file
  /\ raw (with_analysis file result) = raw file
  /\ mimeType (with_analysis file result) = mimeType file
  /\ timestamp (with_analysis file result) = timestamp file
  /\ type (with_analysis file result) = type file.
Proof. repeat split. Qed.



(** A photo whose analysis fails is shown as captured: the press of the
    capture button queues the analysis of the new file, and the failure of
    that call leaves the new file, without analysis, as the current one. *)
Lemma photo_capture_failure_keeps_raw (s : State) (clock : Clock) (frame : string) :
  captureMode (hooks s) = PHOTO ->
  videoMounted s = true ->
  let file := newFile clock frame "image/jpeg" image in
  let taken := step s (ClickCapture clock (Some frame)) in
  let i := List.length (pending (browser s)) in
  appState (hooks taken) = ANALYZING
  /\ nth_error (pending (browser taken)) i = Some (AwaitAnalyzeImage file)
  /\ currentFile (hooks (step taken (Settle i ReplyFailure))) = Some file
  /\ analysis file = None.
Proof.
  intros Hmode Hvideo file taken i.
  assert (Hd : dispatch (ClickCapture clock (Some frame)) s
               = performAnalysis file (setCurrentFile (Some file) s)).
  { unfold dispatch, handleCapture, capturePhoto. rewrite Hmode, Hvideo.
    unfold videoMounted in Hvideo. rewrite Hvideo. reflexivity. }
  assert (Happ : appState (hooks taken) = ANALYZING).
  { subst taken. unfold step. rewrite Hd, appState_commit. reflexivity. }
  assert (Hpend : nth_error (pending (browser taken)) i = Some (AwaitAnalyzeImage file)).
  { subst taken. unfold step. rewrite Hd, pending_commit by (simpl; congruence).
    unfold performAnalysis; unfold_setters; simpl.
    subst i. rewrite nth_error_app2, Nat.sub_diag by lia. reflexivity. }
  split; [exact Happ|]. split; [exact Hpend|]. split; [|reflexivity].
  rewrite (settle_continues _ _ ReplyFailure Hpend eq_refl), currentFile_commit.
  unfold performAnalysis_settled; unfold_setters; simpl.
  subst taken. unfold step. rewrite Hd, currentFile_commit.
  reflexivity.
Qed.

(** ** Editing *)

Lemma viewerScreen_viewing (s s' : State) :
  viewerScreen s = true ->
  appState (hooks s') = VIEWING ->
  currentFile (hooks s') = currentFile (hooks s) ->
  viewerScreen s' = true.
Proof.
  unfold viewerScreen. intros Hs Ha Hf. rewrite Ha, Hf.
  destruct (appState (hooks s)), (currentFile (hooks s)); congruence.
Qed.

Lemma reportsOnly_intro (s s' : State) (message : string) :
  appState (hooks s') = VIEWING ->
  error (hooks s') = Some message ->
  currentFile (hooks s') = currentFile (hooks s) ->
  editedImage (hooks s') = editedImage (hooks s) ->
  reportsOnly s s' message.
Proof.
  intros Ha He Hf Hi. repeat split; auto.
  intros Hv. unfold displayed.
  rewrite (viewerScreen_viewing s s' Hv Ha Hf), Hv, Hf, Hi. reflexivity.
Qed.

(** C3.  When the [editImage] call of a submitted edit settles, the
    state is [VIEWING].  A result with image data makes that image the
    edited image, which the viewer shows for an image file.  A textual
    refusal, a result with neither image nor text, and a failed call each
    set the error message and leave the file, the edited image and what
    the viewer shows as they were. *)
Theorem edit_settles_in_viewing (s : State) (i : nat) :
  nth_error (pending (browser s)) i = Some AwaitEditImage ->
  (forall result data,
      imageData result = Some data -> Js.truthy data = true ->
      let s' := step s (Settle i (ReplyEdit result)) in
      appState (hooks s') = VIEWING
      /\ editedImage (hooks s') = Some (String.append dataUrlPrefix data)
      /\ currentFile (hooks s') = currentFile (hooks s)
      /\ (forall f, currentFile (hooks s) = Some f -> type f = image ->
          displayed s' = Some (String.append dataUrlPrefix data)))
  /\ (forall result text,
      Js.truthy_opt (imageData result) = false ->
      textResponse result = Some text -> Js.truthy text = true ->
      reportsOnly s (step s (Settle i (ReplyEdit result))) text)
  /\ (forall result,
      Js.truthy_opt (imageData result) = false ->
      Js.truthy_opt (textResponse result) = false ->
      reportsOnly s (step s (Settle i (ReplyEdit result))) "No changes generated.")
  /\ reportsOnly s (step s (Settle i ReplyFailure)) "Failed to edit image.".
Proof.
  intros Ht. split; [|split; [|split]].
  - intros result data Hd Htr s'. subst s'.
    rewrite (settle_continues _ _ (ReplyEdit result) Ht eq_refl).
    rewrite appState_commit, editedImage_commit, currentFile_commit.
    unfold handleEditSubmit_settled. rewrite Hd, Htr.
    unfold_setters; simpl. repeat split.
    intros f Hf Hty. rewrite displayed_commit.
    unfold displayed, viewerScreen; simpl. now rewrite Hf, Hty.
  - intros result text Hi Hx Htr.
    rewrite (settle_continues _ _ (ReplyEdit result) Ht eq_refl).
    apply reportsOnly_intro;
      rewrite ?appState_commit, ?error_commit, ?currentFile_commit,
        ?editedImage_commit;
      unfold handleEditSubmit_settled, Js.truthy_opt in *; rewrite Hx, Htr;
      destruct (imageData result); try rewrite Hi; reflexivity.
  - intros result Hi Hx.
    rewrite (settle_continues _ _ (ReplyEdit result) Ht eq_refl).
    apply reportsOnly_intro;
      rewrite ?appState_commit, ?error_commit, ?currentFile_commit,
        ?editedImage_commit;
      unfold handleEditSubmit_settled; rewrite Hx;
      unfold Js.truthy_opt in Hi;
      destruct (imageData result); try rewrite Hi; reflexivity.
  - rewrite (settle_continues _ _ ReplyFailure Ht eq_refl).
    apply reportsOnly_intro;
      rewrite ?appState_commit, ?error_commit, ?currentFile_commit,
        ?editedImage_commit; reflexivity.
Qed.

Lemma edit_settles_in_viewing_witness :
  displayed (step Sample.editing (Settle 0 (ReplyEdit Sample.edited)))
  = Some "data:image/png;base64,BBBB"
  /\ reportsOnly Sample.editing
       (step Sample.editing (Settle 0 (ReplyEdit Sample.refusal)))
       "I cannot do that."
  /\ reportsOnly Sample.editing (step Sample.editing (Settle 0 ReplyFailure))
       "Failed to edit image.".
Proof.
  destruct (@edit_settles_in_viewing Sample.editing 0 eq_refl)
    as (Himg & Htext & _ & Hfail).
  split.
  - destruct (Himg Sample.edited "BBBB" eq_refl eq_refl) as (_ & _ & _ & Hshown).
    apply (Hshown (with_analysis Sample.photo Sample.insight)); reflexivity.
  - split; [|exact Hfail].
    apply (Htext Sample.refusal "I cannot do that."); reflexivity.
Defined.

Ltac unfold_handlers :=
  unfold handleCapture, capturePhoto, startRecording, stopRecording,
    fireStop, recorder_onstop, handleFileSelect, deleteHistoryItem,
    restoreHistoryItem,
    resetApp, handleEditSubmit, performAnalysis in *.

Ltac unfold_continuations :=
  unfold performAnalysis_settled, recordingAnalysis_settled,
    fileAnalysis_settled, readRecording_settled, readFile_settled,
    handleFileSelect_failed, handleEditSubmit_settled, startCamera_settled,
    performAnalysis in *.

(** What a handler other than a settlement does to the edited image:
    nothing, or it clears it. *)
Lemma editedImage_handlers (s : State) (e : Event) :
  (forall i r, e <> Settle i r) ->
  editedImage (hooks (dispatch e s)) = editedImage (hooks s)
  \/ editedImage (hooks (dispatch e s)) = None.
Proof.
  intros Hne. destruct e; try (exfalso; eapply Hne; reflexivity);
    unfold dispatch; unfold_handlers; unfold_setters;
    repeat (break_match; simpl); auto.
Qed.

Lemma editedImage_settle (s : State) (i : nat) (r : Reply) :
  editedImage (hooks (settle i r s)) = editedImage (hooks s)
  \/ acceptedEdit s (Settle i r) (editedImage (hooks (settle i r s))).
Proof.
  unfold settle.
  destruct (nth_error (pending (browser s)) i) as [t|] eqn:Ht; [|now left].
  destruct t, r; simpl; auto;
    unfold_continuations; unfold_setters;
    repeat (break_match; simpl); auto.
  all: right; eexists i, _, _; repeat split; eauto.
Qed.

(** Where the edited image comes from: over every event it stays, is
    cleared, or is the image of an accepted edit. *)
Lemma editedImage_step (s : State) (e : Event) :
  editedImage (hooks (step s e)) = editedImage (hooks s)
  \/ editedImage (hooks (step s e)) = None
  \/ acceptedEdit s e (editedImage (hooks (step s e))).
Proof.
  unfold step. rewrite editedImage_commit.
  destruct e;
    match goal with
    | |- context [dispatch (Settle ?i ?r) s] =>
        change (dispatch (Settle i r) s) with (settle i r s);
        destruct (editedImage_settle s i r); tauto
    | |- context [dispatch ?e s] =>
        assert (Hne : forall i r, e <> Settle i r) by (intros ? ?; discriminate);
        destruct (editedImage_handlers s Hne); tauto
    end.
Qed.

(** An enabled submission runs [handleEditSubmit] to its request. *)
Lemma submit_requests (s : State) (f : ImageFile) :
  currentFile (hooks s) = Some f ->
  editFormShown s = true ->
  submitDisabled s = false ->
  dispatch SubmitEdit s
  = await AwaitEditImage
      (request (CallEditImage (sourceImageRaw (editedImage (hooks s)) f)
                  editMime (editPrompt (hooks s)))
         (setError None (setAppState EDITING s))).
Proof.
  intros Hf Hshown Hdis. unfold dispatch. rewrite Hshown, Hdis. simpl.
  unfold handleEditSubmit. rewrite Hf.
  unfold submitDisabled in Hdis. apply orb_false_elim in Hdis as [Hp _].
  rewrite Hp.
  unfold editFormShown in Hshown. rewrite Hf in Hshown.
  destruct (appState (hooks s)), (type f); try discriminate; reflexivity.
Qed.

Lemma submit_calls (s : State) (f : ImageFile) :
  currentFile (hooks s) = Some f ->
  editFormShown s = true ->
  submitDisabled s = false ->
  calls (browser (step s SubmitEdit))
  = calls (browser s)
    ++ [CallEditImage (sourceImageRaw (editedImage (hooks s)) f)
          editMime (editPrompt (hooks s))].
Proof.
  intros Hf Hshown Hdis. unfold step.
  rewrite calls_commit, (submit_requests s Hf Hshown Hdis). reflexivity.
Qed.

(** C4.  The payload of an edit request is the payload of the edited
    image when there is one (for image data in the base64 alphabet, which
    has no comma) and the raw payload of the current file otherwise.  Over
    every event the edited image stays, is cleared, or becomes the image
    of an accepted edit.  Reset and restore clear it, and restore makes
    the stored record the current file. *)
Theorem edits_chain_through_editedImage :
  (forall s f,
      currentFile (hooks s) = Some f ->
      editFormShown s = true -> submitDisabled s = false ->
      editedImage (hooks s) = None ->
      calls (browser (step s SubmitEdit))
      = calls (browser s)
        ++ [CallEditImage (raw f) "image/png" (editPrompt (hooks s))])
  /\ (forall s f data,
      currentFile (hooks s) = Some f ->
      editFormShown s = true -> submitDisabled s = false ->
      editedImage (hooks s) = Some (String.append dataUrlPrefix data) ->
      Js.lacks "," data = true ->
      calls (browser (step s SubmitEdit))
      = calls (browser s)
        ++ [CallEditImage (Some data) "image/png" (editPrompt (hooks s))])
  /\ (forall s e,
      editedImage (hooks (step s e)) = editedImage (hooks s)
      \/ editedImage (hooks (step s e)) = None
      \/ acceptedEdit s e (editedImage (hooks (step s e))))
  /\ (forall s,
      viewerScreen s = true ->
      editedImage (hooks (step s ClickCamera)) = None)
  /\ (forall s i item,
      showHistory (hooks s) = true ->
      nth_error (history (hooks s)) i = Some item ->
      editedImage (hooks (step s (ClickHistoryItem i))) = None
      /\ currentFile (hooks (step s (ClickHistoryItem i))) = Some item).
Proof.
  split; [|split; [|split; [|split]]].
  - intros s f Hf Hshown Hdis Hnone.
    rewrite (submit_calls s Hf Hshown Hdis), Hnone. reflexivity.
  - intros s f data Hf Hshown Hdis Hsome Hdata.
    rewrite (submit_calls s Hf Hshown Hdis), Hsome.
    unfold sourceImageRaw.
    rewrite dataUrl_truthy, (after_comma_base64 _ Hdata). reflexivity.
  - exact editedImage_step.
  - intros s Hv. unfold step, dispatch.
    rewrite editedImage_commit, Hv. reflexivity.
  - intros s i item Hshow Hitem. unfold step, dispatch.
    rewrite editedImage_commit, currentFile_commit, Hshow, Hitem.
    split; reflexivity.
Qed.

Lemma edits_chain_through_editedImage_witness :
  calls (browser (step (step Sample.viewing (TypePrompt "make it blue")) SubmitEdit))
  = [CallAnalyzeImage (Some "AAAA") "image/jpeg";
     CallEditImage (Some "AAAA") "image/png" "make it blue"]
  /\ calls (browser (step (step Sample.editedOnce (TypePrompt "add a hat")) SubmitEdit))
     = [CallAnalyzeImage (Some "AAAA") "image/jpeg";
        CallEditImage (Some "AAAA") "image/png" "make it blue";
        CallEditImage (Some "BBBB") "image/png" "add a hat"]
  /\ editedImage (hooks (step Sample.editedOnce ClickCamera)) = None
  /\ currentFile (hooks (step Sample.browsing (ClickHistoryItem 0)))
     = Some (with_analysis Sample.photo Sample.insight).
Proof.
  destruct edits_chain_through_editedImage as (Hraw & Hchain & _ & Hreset & Hrestore).
  split.
  - apply (Hraw (step Sample.viewing (TypePrompt "make it blue"))
             (with_analysis Sample.photo Sample.insight)); reflexivity.
  - split.
    + apply (Hchain (step Sample.editedOnce (TypePrompt "add a hat"))
               (with_analysis Sample.photo Sample.insight) "BBBB"); reflexivity.
    + split.
      * apply Hreset. reflexivity.
      * apply (Hrestore Sample.browsing 0
                 (with_analysis Sample.photo Sample.insight)); reflexivity.
Defined.

(** ** The history commit *)

Lemma history_handlers (s : State) (e : Event) :
  (forall i r, e <> Settle i r) ->
  history (hooks (dispatch e s)) = history (hooks s)
  \/ exists i, e = ClickDelete i.
Proof.
  intros Hne. destruct e; try (exfalso; eapply Hne; reflexivity);
    try (right; eexists; reflexivity);
    left; unfold dispatch; unfold_handlers; unfold_setters;
    repeat (break_match; simpl); auto.
Qed.

Lemma history_settle (s : State) (i : nat) (r : Reply) :
  history (hooks (settle i r s)) = history (hooks s)
  \/ historyCommit s (Settle i r) (history (hooks (settle i r s))).
Proof.
  unfold settle.
  destruct (nth_error (pending (browser s)) i) as [t|] eqn:Ht; [|now left].
  destruct t, r; simpl; auto;
    try (right; eexists i, _, _, _; repeat split; eauto; reflexivity);
    left; unfold_continuations; unfold_setters;
    repeat (break_match; simpl); auto.
Qed.

(** Over every event the history stays, loses the record the user
    deleted, or gains the capture whose analysis just succeeded. *)
Lemma history_step (s : State) (e : Event) :
  history (hooks (step s e)) = history (hooks s)
  \/ (exists i, e = ClickDelete i)
  \/ historyCommit s e (history (hooks (step s e))).
Proof.
  unfold step. rewrite history_commit.
  destruct e;
    match goal with
    | |- context [dispatch (Settle ?i ?r) s] =>
        change (dispatch (Settle i r) s) with (settle i r s);
        destruct (history_settle s i r); tauto
    | |- context [dispatch ?e s] =>
        assert (Hne : forall i r, e <> Settle i r) by (intros ? ?; discriminate);
        destruct (history_handlers s Hne); tauto
    end.
Qed.

Lemma pending_commit_same (a b : State) :
  appState (hooks b) = appState (hooks a) ->
  captureMode (hooks b) = captureMode (hooks a) ->
  pending (browser (commit a b)) = pending (browser b).
Proof.
  intros Ha Hm. unfold commit.
  set (b' := if videoMounted b then b else on_refs (r_videoSrc None) b).
  assert (Hb : pending (browser b') = pending (browser b))
    by (subst b'; destruct (videoMounted b); reflexivity).
  assert (Hh : hooks b' = hooks b)
    by (subst b'; destruct (videoMounted b); reflexivity).
  rewrite Hh, Ha, Hm.
  destruct (appState (hooks a)), (captureMode (hooks a)); exact Hb.
Qed.

(** Restoring a record queues nothing and requests nothing. *)
Lemma restore_is_silent (s : State) (i : nat) :
  history (hooks (step s (ClickHistoryItem i))) = history (hooks s)
  /\ calls (browser (step s (ClickHistoryItem i))) = calls (browser s)
  /\ pending (browser (step s (ClickHistoryItem i))) = pending (browser s).
Proof.
  unfold step. rewrite history_commit, calls_commit.
  unfold dispatch.
  destruct (showHistory (hooks s));
    [destruct (nth_error (history (hooks s)) i) as [item|]|].
  - repeat split. rewrite pending_commit by (simpl; congruence). reflexivity.
  - repeat split. apply pending_commit_same; reflexivity.
  - repeat split. apply pending_commit_same; reflexivity.
Qed.

(** C5.  The successful reply of an analysis call puts the analysed
    capture at the front of the history and takes the call out of the
    outstanding ones, so it commits once; a failed call commits nothing.
    No other event adds to the history: over every event the history
    stays, loses a deleted record, or is such a commit.  Restoring a
    record changes neither the history nor the requests made nor the
    calls outstanding. *)
Theorem history_commits_once_per_capture :
  (forall s i t file result,
      nth_error (pending (browser s)) i = Some t ->
      analysedFile t = Some file ->
      history (hooks (step s (Settle i (ReplyAnalysis result))))
      = HistoryStore.addToHistory (with_analysis file result) (history (hooks s))
      /\ pending (browser (step s (Settle i (ReplyAnalysis result))))
         = remove_nth i (pending (browser s))
      /\ history (hooks (step s (Settle i ReplyFailure))) = history (hooks s))
  /\ (forall s e,
      history (hooks (step s e)) = history (hooks s)
      \/ (exists i, e = ClickDelete i)
      \/ historyCommit s e (history (hooks (step s e))))
  /\ (forall s i,
      history (hooks (step s (ClickHistoryItem i))) = history (hooks s)
      /\ calls (browser (step s (ClickHistoryItem i))) = calls (browser s)
      /\ pending (browser (step s (ClickHistoryItem i))) = pending (browser s)).
Proof.
  split; [|split; [exact history_step | exact restore_is_silent]].
  intros s i t file result Ht Hfile.
  destruct t; try discriminate; injection Hfile as ->.
  all: rewrite (settle_continues _ _ (ReplyAnalysis result) Ht eq_refl),
         (settle_continues _ _ ReplyFailure Ht eq_refl).
  all: rewrite !history_commit, pending_commit by (simpl; congruence).
  all: repeat split.
Qed.

Lemma history_commits_once_per_capture_witness :
  history (hooks (step Sample.analysing (Settle 0 (ReplyAnalysis Sample.insight))))
  = [with_analysis Sample.photo Sample.insight]
  /\ pending (browser (step Sample.analysing (Settle 0 (ReplyAnalysis Sample.insight)))) = []
  /\ history (hooks (step Sample.analysing (Settle 0 ReplyFailure))) = [].
Proof.
  destruct history_commits_once_per_capture as (Hcommit & _ & _).
  apply (Hcommit Sample.analysing 0 (AwaitAnalyzeImage Sample.photo)
           Sample.photo Sample.insight); reflexivity.
Defined.

(** ** The declared type of an edit request *)

Lemma calls_dispatch (s : State) (e : Event) :
  calls (browser (dispatch e s)) = calls (browser s)
  \/ exists c, calls (browser (dispatch e s)) = calls (browser s) ++ [c]
               /\ declaresPng c.
Proof.
  destruct e; unfold dispatch, settle;
    try (destruct (nth_error (pending (browser s)) i) as [[] |];
         [destruct r; simpl continuation .. | ]);
    unfold_handlers; unfold_continuations; unfold_setters;
    repeat (break_match; simpl); auto;
    right; eexists; split; reflexivity.
Qed.

Lemma declaresPng_step (s : State) (e : Event) :
  Forall declaresPng (calls (browser s)) ->
  Forall declaresPng (calls (browser (step s e))).
Proof.
  intros H. unfold step. rewrite calls_commit.
  destruct (calls_dispatch s e) as [-> | (c & -> & Hc)]; [exact H|].
  apply Forall_app. split; [exact H | constructor; [exact Hc | constructor]].
Qed.

Lemma declaresPng_run (es : list Event) (s : State) :
  Forall declaresPng (calls (browser s)) ->
  Forall declaresPng (calls (browser (run s es))).
Proof.
  revert s. induction es as [|e es IH]; intros s H; [exact H|].
  apply IH, declaresPng_step, H.
Qed.

(** C10.  Every edit request the component ever makes declares
    [image/png]: after any sequence of events from the mounted component,
    and at each submission whatever the type of the current file; an edit
    of a captured [image/jpeg] photo sends the jpeg payload as
    [image/png]. *)
Theorem edit_requests_declare_png :
  (forall saved es,
      Forall declaresPng (calls (browser (run (mount saved) es))))
  /\ (forall s f,
      currentFile (hooks s) = Some f ->
      editFormShown s = true -> submitDisabled s = false ->
      calls (browser (step s SubmitEdit))
      = calls (browser s)
        ++ [CallEditImage (sourceImageRaw (editedImage (hooks s)) f)
              "image/png" (editPrompt (hooks s))])
  /\ (option_map mimeType (currentFile (hooks Sample.editing)) = Some "image/jpeg"
      /\ calls (browser Sample.editing)
         = [CallAnalyzeImage (Some "AAAA") "image/jpeg";
            CallEditImage (Some "AAAA") "image/png" "make it blue"]).
Proof.
  split; [|split; [exact submit_calls | split; reflexivity]].
  intros saved es. apply declaresPng_run.
  unfold mount. rewrite calls_cameraEffect. constructor.
Qed.

Lemma edit_requests_declare_png_witness :
  calls (browser (step (step Sample.editedOnce (TypePrompt "add a hat")) SubmitEdit))
  = calls (browser (step Sample.editedOnce (TypePrompt "add a hat")))
    ++ [CallEditImage (Some "BBBB") "image/png" "add a hat"].
Proof.
  destruct edit_requests_declare_png as (_ & Hsubmit & _).
  apply (Hsubmit (step Sample.editedOnce (TypePrompt "add a hat"))
           (with_analysis Sample.photo Sample.insight)); reflexivity.
Defined.

(** A call that settles after the user went back to the camera still
    moves the state to [VIEWING]; when it brings no file (a failed
    analysis, any edit reply) there is no current file, and neither the
    camera screen nor the viewer is rendered. *)
Lemma settle_after_reset_shows_nothing :
  let s := run Sample.editing [ClickCamera; Settle 0 ReplyFailure] in
  appState (hooks s) = VIEWING
  /\ currentFile (hooks s) = None
  /\ error (hooks s) = Some "Failed to edit image."
  /\ cameraScreen s = false
  /\ viewerScreen s = false
  /\ displayed s = None.
Proof. repeat split. Qed.

(** ** Outstanding edits *)

(** C6, as stated, fails: an edit left outstanding when the user goes
    back to the camera is still outstanding when a record is restored and
    a second edit is submitted. *)
Lemma two_edits_outstanding :
  outstandingEdits (run (mount []) Sample.overlappingEdits) = 2
  /\ ~ atMostOneEditOutstanding (run (mount []) Sample.overlappingEdits).
Proof.
  assert (H : outstandingEdits (run (mount []) Sample.overlappingEdits) = 2)
    by reflexivity.
  split; [exact H|]. unfold atMostOneEditOutstanding. rewrite H. lia.
Qed.

(** The handler itself does not look at [appState]: called in [EDITING]
    it makes a second request. *)
Lemma handleEditSubmit_has_no_state_guard :
  appState (hooks Sample.editing) = EDITING
  /\ outstandingEdits Sample.editing = 1
  /\ outstandingEdits (handleEditSubmit Sample.editing) = 2.
Proof. repeat split. Qed.

Lemma commit_same_browser_lists (s : State) :
  pending (browser (commit s s)) = pending (browser s).
Proof. apply pending_commit_same; reflexivity. Qed.

(** C6, amended.  While the state is [EDITING] the submit control and
    the prompt input are disabled: a submission is ignored, it makes no
    request and leaves the outstanding edit calls as they are. *)
Theorem submit_while_editing_is_ignored (s : State) :
  appState (hooks s) = EDITING ->
  dispatch SubmitEdit s = s
  /\ (forall text, dispatch (TypePrompt text) s = s)
  /\ outstandingEdits (step s SubmitEdit) = outstandingEdits s
  /\ calls (browser (step s SubmitEdit)) = calls (browser s)
  /\ pending (browser (step s SubmitEdit)) = pending (browser s).
Proof.
  intros He.
  assert (Hs : dispatch SubmitEdit s = s).
  { unfold dispatch, submitDisabled. rewrite He. simpl.
    rewrite orb_true_r, andb_false_r. reflexivity. }
  split; [exact Hs|]. split.
  - intros text. unfold dispatch, promptDisabled. rewrite He. simpl.
    rewrite andb_false_r. reflexivity.
  - unfold step. rewrite Hs, edits_commit, calls_commit, commit_same_browser_lists.
    repeat split.
Qed.

Lemma submit_while_editing_is_ignored_witness :
  dispatch SubmitEdit Sample.editing = Sample.editing
  /\ outstandingEdits (step Sample.editing SubmitEdit) = 1.
Proof.
  destruct (@submit_while_editing_is_ignored Sample.editing eq_refl)
    as (Hd & _ & He & _).
  split; [exact Hd | exact He].
Defined.

(** ** Recording *)






(** ** The camera *)

(** C9 fails on the code when a recording starts.  In video mode with the
    camera granted the state is [IDLE] and the camera is held; pressing
    the capture button starts a recorder and moves to [RECORDING], and
    the camera effect, run again for the new state, stops every track and
    requests no new stream: the camera is not held while recording. *)
Theorem camera_released_when_recording_starts :
  appState (hooks Sample.videoReady) = IDLE
  /\ cameraHeld Sample.videoReady = true
  /\ appState (hooks Sample.recording) = RECORDING
  /\ recorders (browser Sample.recording) = [RecRecording]
  /\ cameraHeld Sample.recording = false
  /\ pending (browser Sample.recording) = [].
Proof. repeat split. Qed.

Lemma nth_error_update_nth {A : Type} (f : A -> A) (l : list A) (n k : nat) :
  nth_error (update_nth k f l) n
  = if Nat.eqb n k then option_map f (nth_error l n) else nth_error l n.
Proof.
  revert n k. induction l as [|x l IH]; intros [|n] [|k]; simpl; auto.
  all: try (destruct (Nat.eqb _ _); reflexivity).
Qed.

(** A stream without a live track stays so when the camera is stopped. *)
Lemma dead_stopCamera (o : option nat) (s : State) (n : nat) :
  nth_error (streams (browser s)) n
  = Some {| videoLive := false; audioLive := false |} ->
  nth_error (streams (browser (stopCamera o s))) n
  = Some {| videoLive := false; audioLive := false |}.
Proof.
  intros H. unfold stopCamera; unfold_setters.
  destruct o as [k|]; simpl; destruct (videoTrackRef (refs s)) as [j|]; simpl;
    rewrite ?nth_error_update_nth;
    repeat (destruct (Nat.eqb _ _); rewrite ?nth_error_update_nth);
    rewrite ?H; reflexivity.
Qed.

(** The release is not particular to the sample: whenever rendering takes
    the state from [IDLE] to [RECORDING], the stream the camera effect
    holds has no live track afterwards and no camera request is queued. *)
Lemma entering_recording_stops_stream (a b : State) (n : nat) (m : Stream) :
  appState (hooks a) = IDLE ->
  appState (hooks b) = RECORDING ->
  effectStream (browser b) = Some n ->
  nth_error (streams (browser b)) n = Some m ->
  nth_error (streams (browser (commit a b))) n
  = Some {| videoLive := false; audioLive := false |}
  /\ pending (browser (commit a b)) = pending (browser b).
Proof.
  intros Ha Hb Hn Hm. split; [|apply pending_commit; congruence].
  unfold commit.
  set (b' := if videoMounted b then b else on_refs (r_videoSrc None) b).
  assert (Hh : hooks b' = hooks b)
    by (subst b'; destruct (videoMounted b); reflexivity).
  assert (Hs : browser b' = browser b)
    by (subst b'; destruct (videoMounted b); reflexivity).
  rewrite Hh, Ha, Hb. simpl.
  unfold cameraEffect; unfold_setters; simpl.
  unfold cameraCleanup. rewrite hooks_stopCamera, Hh, Hb, Hs, Hn.
  apply dead_stopCamera. simpl.
  unfold stopCamera; unfold_setters. simpl.
  destruct (videoTrackRef (refs b')) as [j|]; simpl;
    rewrite ?nth_error_update_nth, ?Nat.eqb_refl, Hs, ?nth_error_update_nth,
      ?Nat.eqb_refl, Hm; simpl;
    try destruct (Nat.eqb n j); reflexivity.
Qed.

(** * Further properties *)

(** ** Deleting from the history *)

(** X1.  [deleteHistoryItem] keeps exactly the records whose id is not
    the target, in their order: it distributes over concatenation, leaves
    a history without the target as it is, never lengthens the history,
    and a second deletion changes nothing. *)
Theorem deleteHistoryItem_removes_id (target : string) (prev : list HistoryItem) :
  (forall item, In item (HistoryStore.deleteHistoryItem target prev)
                <-> In item prev /\ id item <> target)
  /\ (forall older,
        HistoryStore.deleteHistoryItem target (prev ++ older)
        = HistoryStore.deleteHistoryItem target prev
          ++ HistoryStore.deleteHistoryItem target older)
  /\ ((forall item, In item prev -> id item <> target) ->
      HistoryStore.deleteHistoryItem target prev = prev)
  /\ List.length (HistoryStore.deleteHistoryItem target prev) <= List.length prev
  /\ HistoryStore.deleteHistoryItem target
       (HistoryStore.deleteHistoryItem target prev)
     = HistoryStore.deleteHistoryItem target prev.
Proof.
  unfold HistoryStore.deleteHistoryItem.
  split; [|split; [|split; [|split]]].
  - intros item. rewrite filter_In, negb_true_iff, String.eqb_neq. reflexivity.
  - intros older. apply filter_app.
  - intros H. induction prev as [|x l IH]; [reflexivity|]. simpl.
    assert (Hx : (id x =? target) = false)
      by (apply String.eqb_neq, H; left; reflexivity).
    rewrite Hx. simpl. f_equal. apply IH. intros item Hi. apply H. right. exact Hi.
  - apply filter_length_le.
  - induction prev as [|x l IH]; [reflexivity|]. simpl.
    destruct (negb (id x =? target)) eqn:E; simpl; rewrite ?E, IH; reflexivity.
Qed.

Lemma deleteHistoryItem_removes_id_witness :
  HistoryStore.deleteHistoryItem "7" [Sample.photo; with_analysis Sample.photo Sample.insight]
  = [Sample.photo; with_analysis Sample.photo Sample.insight].
Proof.
  destruct (deleteHistoryItem_removes_id "7"
              [Sample.photo; with_analysis Sample.photo Sample.insight])
    as (_ & _ & Habsent & _).
  apply Habsent. intros item [<- | [<- | []]]; discriminate.
Defined.

(** ** The bound of the history *)

Lemma history_length_step (s : State) (e : Event) :
  List.length (history (hooks (step s e))) <= 50
  \/ List.length (history (hooks (step s e))) <= List.length (history (hooks s)).
Proof.
  destruct (history_step s e) as [H | [[i ->] | (i & result & file & t & _ & _ & _ & H)]].
  - right. rewrite H. lia.
  - right. unfold step. rewrite history_commit. unfold dispatch, deleteHistoryItem.
    destruct (showHistory (hooks s)); [|lia].
    destruct (nth_error (history (hooks s)) i); [|lia].
    unfold_setters; simpl. apply filter_length_le.
  - left. rewrite H. unfold HistoryStore.addToHistory, HistoryStore.bound.
    rewrite length_firstn. lia.
Qed.

(** X2.  No sequence of events makes the history longer than 50 records
    or than it was: a history of at most 50 records stays so, and a longer
    one (the load effect does not cut what it reads) never grows. *)
Theorem history_stays_bounded (s : State) (es : list Event) :
  List.length (history (hooks (run s es)))
  <= Nat.max 50 (List.length (history (hooks s))).
Proof.
  revert s. induction es as [|e es IH]; intros s;
    [change (run s []) with s; lia|].
  change (run s (e :: es)) with (run (step s e) es).
  specialize (IH (step s e)). destruct (history_length_step s e); lia.
Qed.

(** ** Identifiers and payloads of new files *)

Lemma toString_inj (a b : N) : Js.toString a = Js.toString b -> a = b.
Proof.
  unfold Js.toString. intros H.
  assert (Hnn : forall n, N.to_uint n <> Decimal.Nil).
  { intros [|p]; [discriminate | apply DecimalPos.Unsigned.to_uint_nonnil]. }
  apply DecimalN.Unsigned.to_uint_inj.
  pose proof (NilZero.usu _ (Hnn a)) as Ha.
  pose proof (NilZero.usu _ (Hnn b)) as Hb.
  rewrite H in Ha. rewrite Ha in Hb. now injection Hb.
Qed.

(** X3.  The id of a new file determines the clock reading it was made
    from: files made at different readings have different ids, so the
    deletion of one of them keeps the other; files made at the same
    reading share their id and are deleted together. *)
Theorem newFile_ids_follow_the_clock (c1 c2 : Clock) (url1 url2 mime1 mime2 : string)
  (ty1 ty2 : MediaType) :
  let f1 := newFile c1 url1 mime1 ty1 in
  let f2 := newFile c2 url2 mime2 ty2 in
  (id f1 = id f2 <-> forId c1 = forId c2)
  /\ (forId c1 <> forId c2 ->
      HistoryStore.deleteHistoryItem (id f1) [f2; f1] = [f2])
  /\ (forId c1 = forId c2 ->
      HistoryStore.deleteHistoryItem (id f1) [f2; f1] = []).
Proof.
  intros f1 f2.
  assert (Hid : id f1 = id f2 <-> forId c1 = forId c2).
  { split; [apply toString_inj | intros H; simpl; now rewrite H]. }
  split; [exact Hid|].
  unfold HistoryStore.deleteHistoryItem. simpl filter.
  rewrite String.eqb_refl. simpl.
  split; intros H.
  - assert (E : (Js.toString (forId c2) =? Js.toString (forId c1)) = false).
    { apply String.eqb_neq. intros E. apply H. symmetry. now apply toString_inj. }
    rewrite E. reflexivity.
  - rewrite H, String.eqb_refl. reflexivity.
Qed.

Lemma newFile_ids_follow_the_clock_witness :
  HistoryStore.deleteHistoryItem "1700000000000"
    [newFile {| forId := 1700000000002; forTimestamp := 1700000000002 |}
       "data:video/webm;base64,CCCC" "video/webm" video;
     Sample.photo]
  = [newFile {| forId := 1700000000002; forTimestamp := 1700000000002 |}
       "data:video/webm;base64,CCCC" "video/webm" video].
Proof.
  destruct (newFile_ids_follow_the_clock Sample.clock
              {| forId := 1700000000002; forTimestamp := 1700000000002 |}
              Sample.frame "data:video/webm;base64,CCCC"
              "image/jpeg" "video/webm" image video) as (_ & Hkeep & _).
  apply Hkeep. discriminate.
Defined.

(** X4.  The raw payload of a new file is what stands between the first
    and the second comma of its data URL: for a URL of a comma-free header,
    a comma and a comma-free payload it is that payload (the empty one for
    the URL of an empty canvas); for a URL without comma it is undefined,
    and the file keeps the whole URL as its preview in every case. *)
Theorem newFile_raw_payload (clock : Clock) (mime : string) (ty : MediaType) :
  (forall header payload,
      Js.lacks "," header = true -> Js.lacks "," payload = true ->
      raw (newFile clock (String.append header (String "," payload)) mime ty)
      = Some payload)
  /\ (forall url, Js.lacks "," url = true ->
      raw (newFile clock url mime ty) = None)
  /\ (forall url, preview (newFile clock url mime ty) = url
                  /\ analysis (newFile clock url mime ty) = None)
  /\ raw (newFile clock "data:," mime ty) = Some "".
Proof.
  split; [|split; [|split]].
  - intros header payload Hh Hp. simpl. unfold Js.after_comma.
    rewrite (split_at_first _ _ payload Hh), (split_lacks _ _ Hp). reflexivity.
  - intros url Hu. simpl. unfold Js.after_comma.
    rewrite (split_lacks _ _ Hu). reflexivity.
  - intros url. split; reflexivity.
  - reflexivity.
Qed.

Lemma newFile_raw_payload_witness :
  raw (newFile Sample.clock "data:image/jpeg;base64,AAAA" "image/jpeg" image)
  = Some "AAAA"
  /\ raw (newFile Sample.clock "garbage" "image/jpeg" image) = None.
Proof.
  destruct (newFile_raw_payload Sample.clock "image/jpeg" image) as (Hp & Hn & _).
  split.
  - apply (Hp "data:image/jpeg;base64" "AAAA"); reflexivity.
  - apply Hn. reflexivity.
Defined.

(** ** The recording clock *)

Lemma digits_lack_colon (d : Decimal.uint) :
  Js.lacks ":" (NilEmpty.string_of_uint d) = true.
Proof. induction d; simpl; auto. Qed.

Lemma toString_lacks_colon (n : N) : Js.lacks ":" (Js.toString n) = true.
Proof.
  unfold Js.toString, NilZero.string_of_uint.
  destruct (N.to_uint n); try reflexivity; apply digits_lack_colon.
Qed.

Lemma append_colon_inj (a b x y : string) :
  Js.lacks ":" a = true -> Js.lacks ":" b = true ->
  String.append a (String ":" x) = String.append b (String ":" y) ->
  a = b /\ x = y.
Proof.
  revert b. induction a as [|c a IH]; intros [|d b] Ha Hb H; simpl in *.
  - injection H as ->. auto.
  - injection H as <- _. discriminate.
  - injection H as -> _. discriminate.
  - injection H as -> H.
    apply andb_prop in Ha as [_ Ha]. apply andb_prop in Hb as [_ Hb].
    destruct (IH b Ha Hb H) as [-> ->]. auto.
Qed.

Lemma length_append (a b : string) :
  String.length (String.append a b) = String.length a + String.length b.
Proof. induction a as [|c a IH]; simpl; [reflexivity | now rewrite IH]. Qed.

(** The two digits of the seconds read back as the seconds. *)
Lemma seconds_read_back (k : nat) :
  k < 60 ->
  String.length (padStart 2 "0" (Js.toString (N.of_nat k))) = 2
  /\ option_map (fun d => N.to_nat (N.of_uint d))
       (NilEmpty.uint_of_string (padStart 2 "0" (Js.toString (N.of_nat k))))
     = Some k.
Proof.
  intros Hk.
  assert (Hall : forallb
            (fun k =>
               Nat.eqb (String.length (padStart 2 "0" (Js.toString (N.of_nat k)))) 2
               && match NilEmpty.uint_of_string
                          (padStart 2 "0" (Js.toString (N.of_nat k))) with
                  | Some d => Nat.eqb (N.to_nat (N.of_uint d)) k
                  | None => false
                  end)
            (seq 0 60) = true) by (vm_compute; reflexivity).
  rewrite forallb_forall in Hall.
  specialize (Hall k). rewrite in_seq in Hall.
  specialize (Hall ltac:(lia)).
  apply andb_prop in Hall as [Hl Hd].
  apply Nat.eqb_eq in Hl. split; [exact Hl|].
  destruct (NilEmpty.uint_of_string _); [|discriminate].
  apply Nat.eqb_eq in Hd. simpl. now rewrite Hd.
Qed.

(** X5.  [formatTime] writes the minutes in decimal, a colon, and always
    two characters for the seconds, and the text determines the time:
    different counts of seconds are shown differently. *)
Theorem formatTime_is_unambiguous :
  (forall t,
      String.length (formatTime t)
      = String.length (Js.toString (N.of_nat (t / 60))) + 3)
  /\ (forall a b, formatTime a = formatTime b -> a = b)
  /\ formatTime 0 = "0:00"
  /\ formatTime 59 = "0:59"
  /\ formatTime 60 = "1:00"
  /\ formatTime 3725 = "62:05".
Proof.
  split; [|split; [|repeat split]].
  - intros t. unfold formatTime. cbv zeta.
    rewrite length_append. cbn [String.length].
    assert (Lt : t mod 60 < 60) by (apply Nat.mod_upper_bound; discriminate).
    destruct (seconds_read_back Lt) as [Hl _].
    rewrite Hl. lia.
  - intros a b H.
    pose proof (Nat.div_mod_eq a 60) as Ea.
    pose proof (Nat.div_mod_eq b 60) as Eb.
    assert (La : a mod 60 < 60) by (apply Nat.mod_upper_bound; discriminate).
    assert (Lb : b mod 60 < 60) by (apply Nat.mod_upper_bound; discriminate).
    unfold formatTime in H. cbv zeta in H.
    remember (a mod 60) as sa. remember (b mod 60) as sb.
    remember (a / 60) as ma. remember (b / 60) as mb.
    apply append_colon_inj in H; try apply toString_lacks_colon.
    destruct H as [Hm Hs].
    apply toString_inj, Nat2N.inj in Hm.
    destruct (seconds_read_back La) as [_ Ha].
    destruct (seconds_read_back Lb) as [_ Hb].
    rewrite Hs, Hb in Ha. injection Ha as Hsec.
    rewrite Ea, Eb, Hm, Hsec. reflexivity.
Qed.

(** ** The edit form *)

(** Stripping leading white space twice strips nothing more. *)
Lemma trimStart_fixed (n : nat) (s : string) :
  String.length s <= n -> Js.trimStart (Js.trimStart s) = Js.trimStart s.
Proof.
  revert s. induction n as [|n IH]; intros s Hl.
  - destruct s; [reflexivity | simpl in Hl; lia].
  - destruct s as [|a r]; [reflexivity|].
    assert (E : Js.trimStart (String a r)
                = match Js.ws_head (String a r) with
                  | 1 => Js.trimStart r
                  | 2 => match r with
                         | String _ r2 => Js.trimStart r2
                         | EmptyString => String a r
                         end
                  | 3 => match r with
                         | String _ (String _ r3) => Js.trimStart r3
                         | _ => String a r
                         end
                  | _ => String a r
                  end) by reflexivity.
    simpl in Hl.
    destruct (Js.ws_head (String a r)) as [|[|[|[|k]]]]; cbv iota in E.
    + rewrite E. exact E.
    + rewrite E. apply IH. lia.
    + destruct r as [|b r2].
      * rewrite E. exact E.
      * rewrite E. apply IH. simpl in Hl. lia.
    + destruct r as [|b [|c r3]].
      * rewrite E. exact E.
      * rewrite E. exact E.
      * rewrite E. apply IH. simpl in Hl. lia.
    + rewrite E. exact E.
Qed.

Lemma truthy_trimEnd (s : string) :
  Js.truthy (Js.trimEnd s) = negb (Js.blank s).
Proof.
  destruct s as [|a r]; [reflexivity|].
  cbn [Js.trimEnd]. destruct (Js.blank (String a r)); reflexivity.
Qed.

(** [trim] leaves something exactly when the string is not blank. *)
Lemma truthy_trim (s : string) : Js.truthy (Js.trim s) = negb (blank s).
Proof.
  unfold Js.trim, blank. rewrite truthy_trimEnd. unfold Js.blank.
  rewrite (trimStart_fixed (n := String.length s)) by lia. reflexivity.
Qed.

(** The white space of [trim] is not only the ASCII one: a no-break
    space, a line separator and a byte order mark are stripped too, while
    a letter between them stays. *)
Lemma trim_strips_unicode_space :
  Js.trim Scenario.noBreakSpace = ""
  /\ blank (String.append " " (String.append Scenario.noBreakSpace
              (String (ascii_of_nat 226) (String (ascii_of_nat 128)
                 (String (ascii_of_nat 168) (String (ascii_of_nat 239)
                    (String (ascii_of_nat 187) (String (ascii_of_nat 191) ""))))))))
     = true
  /\ Js.trim (String.append Scenario.noBreakSpace
                (String.append "a b" (String.append Scenario.noBreakSpace " ")))
     = "a b"
  /\ blank (String (ascii_of_nat 194) (String (ascii_of_nat 133) "")) = false.
Proof. repeat split. Qed.

(** X6.  The submit control is disabled exactly when the prompt is
    white space only (the white space of [trim]: ASCII and Unicode) or the
    state is [EDITING].  [handleEditSubmit] has
    the same test on the prompt: with a blank prompt, without a current
    file, or with a video as the current file it returns the state as it
    is, and a submission then makes no request and starts no call. *)
Theorem blank_prompt_is_never_submitted (s : State) :
  submitDisabled s
  = blank (editPrompt (hooks s)) || AppState_eqb (appState (hooks s)) EDITING
  /\ (blank (editPrompt (hooks s)) = true
      \/ currentFile (hooks s) = None
      \/ (exists f, currentFile (hooks s) = Some f /\ type f = video) ->
      handleEditSubmit s = s
      /\ calls (browser (step s SubmitEdit)) = calls (browser s)
      /\ pending (browser (step s SubmitEdit)) = pending (browser s)
      /\ appState (hooks (step s SubmitEdit)) = appState (hooks s)).
Proof.
  split.
  - unfold submitDisabled. rewrite truthy_trim, negb_involutive. reflexivity.
  - intros H.
    assert (Hh : handleEditSubmit s = s).
    { unfold handleEditSubmit. rewrite truthy_trim, negb_involutive.
      destruct H as [Hb | [Hn | (f & Hf & Hv)]].
      - rewrite Hb. destruct (currentFile (hooks s)); reflexivity.
      - rewrite Hn. reflexivity.
      - rewrite Hf, Hv. destruct (blank _); reflexivity. }
    assert (Hd : dispatch SubmitEdit s = s).
    { unfold dispatch. rewrite Hh. destruct (_ && _); reflexivity. }
    split; [exact Hh|]. unfold step. rewrite Hd, calls_commit, appState_commit.
    repeat split. apply pending_commit_same; reflexivity.
Qed.

Lemma blank_prompt_is_never_submitted_witness :
  handleEditSubmit (step Sample.viewing (TypePrompt "  "))
  = step Sample.viewing (TypePrompt "  ")
  /\ submitDisabled (step Sample.viewing (TypePrompt Scenario.noBreakSpace)) = true
  /\ handleEditSubmit (step Sample.viewing (TypePrompt Scenario.noBreakSpace))
     = step Sample.viewing (TypePrompt Scenario.noBreakSpace).
Proof.
  destruct (blank_prompt_is_never_submitted (step Sample.viewing (TypePrompt "  ")))
    as (_ & H).
  destruct (blank_prompt_is_never_submitted
              (step Sample.viewing (TypePrompt Scenario.noBreakSpace)))
    as (Hd & Hn).
  split; [apply H; left; reflexivity|].
  split; [rewrite Hd; reflexivity|].
  apply Hn. left. reflexivity.
Defined.

(** X7.  An accepted edit empties the prompt; a reply without an image
    (a refusal, an empty result, a failure) leaves the prompt as typed, so
    that it can be submitted again. *)
Theorem prompt_is_kept_unless_edit_accepted (s : State) (i : nat) :
  nth_error (pending (browser s)) i = Some AwaitEditImage ->
  (forall result data,
      imageData result = Some data -> Js.truthy data = true ->
      editPrompt (hooks (step s (Settle i (ReplyEdit result)))) = "")
  /\ (forall reply,
      withoutImage reply = true ->
      editPrompt (hooks (step s (Settle i reply))) = editPrompt (hooks s)
      /\ submitDisabled (step s (Settle i reply))
         = blank (editPrompt (hooks s))).
Proof.
  intros Ht. split.
  - intros result data Hd Htr.
    rewrite (settle_continues _ _ (ReplyEdit result) Ht eq_refl), editPrompt_commit.
    unfold handleEditSubmit_settled. rewrite Hd, Htr. reflexivity.
  - intros reply Hr.
    assert (Hk : exists k, continuation AwaitEditImage reply = Some k
                 /\ forall x, editPrompt (hooks (k x)) = editPrompt (hooks x)
                              /\ appState (hooks (k x)) = VIEWING).
    { destruct reply; try discriminate; eexists; (split; [reflexivity|]);
        intros x; unfold handleEditSubmit_settled.
      - simpl in Hr. apply negb_true_iff in Hr. unfold Js.truthy_opt in Hr.
        destruct (imageData result); [rewrite Hr|];
          destruct (Js.truthy_opt (textResponse result)); split; reflexivity.
      - split; reflexivity. }
    destruct Hk as (k & Hk & Hkeep).
    rewrite (settle_continues _ _ reply Ht Hk).
    unfold submitDisabled.
    rewrite appState_commit, !editPrompt_commit.
    destruct (Hkeep (on_browser (fun b => b_pending (remove_nth i (pending b)) b) s))
      as [-> ->].
    rewrite truthy_trim, negb_involutive, orb_false_r. split; reflexivity.
Qed.

Lemma prompt_is_kept_unless_edit_accepted_witness :
  editPrompt (hooks (step Sample.editing (Settle 0 (ReplyEdit Sample.edited)))) = ""
  /\ editPrompt (hooks (step Sample.editing (Settle 0 (ReplyEdit Sample.refusal))))
     = "make it blue"
  /\ submitDisabled (step Sample.editing (Settle 0 (ReplyEdit Sample.refusal)))
     = false
  /\ submitDisabled
       (step (setEditPrompt Scenario.noBreakSpace Sample.editing)
          (Settle 0 ReplyFailure))
     = true.
Proof.
  destruct (@prompt_is_kept_unless_edit_accepted Sample.editing 0 eq_refl)
    as (Hok & Hkeep).
  destruct (@prompt_is_kept_unless_edit_accepted
              (setEditPrompt Scenario.noBreakSpace Sample.editing) 0 eq_refl)
    as (_ & Hspace).
  split; [apply (Hok Sample.edited "BBBB"); reflexivity|].
  destruct (Hkeep (ReplyEdit Sample.refusal) eq_refl) as (Hp & Hd).
  split; [exact Hp|]. split; [rewrite Hd; reflexivity|].
  destruct (Hspace ReplyFailure eq_refl) as (_ & Hd').
  rewrite Hd'. reflexivity.
Defined.

(** X8.  Undoing an edit shows the preview of the current file again and
    makes the next edit start from the raw payload of that file. *)
Theorem undo_returns_to_the_original (s : State) (f : ImageFile) (edited : string) :
  appState (hooks s) = VIEWING ->
  currentFile (hooks s) = Some f ->
  type f = image ->
  editedImage (hooks s) = Some edited ->
  Js.truthy edited = true ->
  let undone := step s ClickUndoEdit in
  displayed s = Some edited
  /\ displayed undone = Some (preview f)
  /\ editedImage (hooks undone) = None
  /\ (blank (editPrompt (hooks s)) = false ->
      calls (browser (step undone SubmitEdit))
      = calls (browser s)
        ++ [CallEditImage (raw f) "image/png" (editPrompt (hooks s))]).
Proof.
  intros Ha Hf Hty He Htr undone.
  assert (Hd : dispatch ClickUndoEdit s = setEditedImage None s).
  { unfold dispatch, viewerScreen. rewrite Ha, Hf, He. simpl. now rewrite Htr. }
  assert (Hcells : appState (hooks undone) = VIEWING
                   /\ currentFile (hooks undone) = Some f
                   /\ editedImage (hooks undone) = None
                   /\ editPrompt (hooks undone) = editPrompt (hooks s)
                   /\ calls (browser undone) = calls (browser s)).
  { subst undone. unfold step.
    rewrite appState_commit, currentFile_commit, editedImage_commit,
      editPrompt_commit, calls_commit, Hd. simpl. auto. }
  destruct Hcells as (Ha' & Hf' & He' & Hp' & Hc').
  split; [|split; [|split]].
  - unfold displayed, viewerScreen. rewrite Ha, Hf, Hty, He. simpl.
    destruct edited; [discriminate | reflexivity].
  - unfold displayed, viewerScreen. rewrite Ha', Hf', Hty, He'. reflexivity.
  - exact He'.
  - intros Hb.
    rewrite (@submit_calls undone f Hf').
    + rewrite He', Hp', Hc'. reflexivity.
    + unfold editFormShown. now rewrite Ha', Hf', Hty.
    + unfold submitDisabled. rewrite Ha', Hp', truthy_trim, Hb. reflexivity.
Qed.

Lemma undo_returns_to_the_original_witness :
  displayed (step Sample.editedOnce ClickUndoEdit) = Some Sample.frame.
Proof.
  destruct (@undo_returns_to_the_original Sample.editedOnce
              (with_analysis Sample.photo Sample.insight)
              "data:image/png;base64,BBBB" eq_refl eq_refl eq_refl eq_refl eq_refl)
    as (_ & H & _).
  exact H.
Defined.

(** ** The error message *)

Lemma error_handlers (s : State) (e : Event) :
  (forall i r, e <> Settle i r) ->
  error (hooks (dispatch e s)) = error (hooks s)
  \/ (exists ty, e = ChangeFile (Some ty))
  \/ e = SubmitEdit.
Proof.
  intros Hne. destruct e; try (exfalso; eapply Hne; reflexivity);
    try (right; right; reflexivity);
    try (destruct file; [right; left; eexists; reflexivity|]);
    left; unfold dispatch; unfold_handlers; unfold_setters;
    repeat (break_match; simpl); auto.
Qed.

Lemma error_settle (s : State) (i : nat) (r : Reply) :
  error (hooks (settle i r s)) = error (hooks s)
  \/ exists message, error (hooks (settle i r s)) = Some message.
Proof.
  unfold settle.
  destruct (nth_error (pending (browser s)) i) as [t|] eqn:Ht; [|now left].
  destruct t, r; simpl; auto;
    unfold_continuations; unfold_setters;
    repeat (break_match; simpl); eauto.
  all: unfold Js.truthy_opt in *;
    destruct (textResponse result); try discriminate; eauto.
Qed.

(** X9.  Of the events of capture, recording, analysis, history, reset
    and editing, only the choice of a file and the submission of an edit
    remove a message from [error]: after every other one, a reset, a
    restore and a successful analysis included, a message is still there.
    (The clipboard notice of [shareContent], which is outside the model,
    clears [error] on a timer of its own.) *)
Theorem error_is_cleared_only_by_file_or_edit (s : State) (e : Event) :
  error (hooks s) <> None ->
  error (hooks (step s e)) = None ->
  (exists ty, e = ChangeFile (Some ty)) \/ e = SubmitEdit.
Proof.
  intros Hs Hnone. unfold step in Hnone. rewrite error_commit in Hnone.
  destruct e;
    match goal with
    | H : context [dispatch (Settle ?i ?r) s] |- _ =>
        change (dispatch (Settle i r) s) with (settle i r s) in H;
        destruct (error_settle s i r) as [E | [m E]]; congruence
    | H : context [dispatch ?e s] |- _ =>
        assert (Hne : forall i r, e <> Settle i r) by (intros ? ?; discriminate);
        destruct (error_handlers s Hne) as [E | E]; [congruence | exact E]
    end.
Qed.

Lemma error_is_cleared_only_by_file_or_edit_witness :
  error (hooks (step Sample.analysing (Settle 0 ReplyFailure)))
  = Some "Could not analyze image."
  /\ ((exists ty, ChangeFile (Some "image/png") = ChangeFile (Some ty))
      \/ ChangeFile (Some "image/png") = SubmitEdit).
Proof.
  split; [reflexivity|].
  apply (@error_is_cleared_only_by_file_or_edit
           (step Sample.analysing (Settle 0 ReplyFailure))
           (ChangeFile (Some "image/png"))).
  - intros E. vm_compute in E. discriminate E.
  - reflexivity.
Defined.

(** ** The states *)

Lemma appState_handlers (s : State) (e : Event) :
  (forall i r, e <> Settle i r) ->
  appState (hooks (dispatch e s)) = appState (hooks s)
  \/ (appState (hooks (dispatch e s)) = IDLE /\ e = ClickCamera)
  \/ (appState (hooks (dispatch e s)) = VIEWING /\ exists i, e = ClickHistoryItem i)
  \/ (appState (hooks (dispatch e s)) = EDITING /\ e = SubmitEdit)
  \/ ((appState (hooks (dispatch e s)) = RECORDING
       \/ appState (hooks (dispatch e s)) = ANALYZING)
      /\ exists clock frame, e = ClickCapture clock frame).
Proof.
  intros Hne. destruct e; try (exfalso; eapply Hne; reflexivity);
    unfold dispatch; unfold_handlers; unfold_setters;
    repeat (break_match; simpl); eauto 10.
Qed.

Lemma appState_settle (s : State) (i : nat) (r : Reply) :
  appState (hooks (settle i r s)) = appState (hooks s)
  \/ (appState (hooks (settle i r s)) = IDLE /\ r = ReplyFailure)
  \/ appState (hooks (settle i r s)) = VIEWING
  \/ (appState (hooks (settle i r s)) = ANALYZING
      /\ exists clock url, r = ReplyData clock url).
Proof.
  unfold settle.
  destruct (nth_error (pending (browser s)) i) as [t|] eqn:Ht; [|now left].
  destruct t, r; simpl; auto;
    unfold_continuations; unfold_setters;
    repeat (break_match; simpl); eauto 10.
Qed.

(** X10.  The transitions of the state.  An event that changes the
    state enters [IDLE] only as the Camera button or a failed promise,
    [RECORDING] only as the capture button, [ANALYZING] only as the
    capture button or a finished read, [VIEWING] only as a restored
    record or a settled promise, [EDITING] only as the submission of an
    edit, and [ERROR] never. *)
Theorem states_are_entered_by_their_events (s : State) (e : Event) :
  appState (hooks (step s e)) <> appState (hooks s) ->
  match appState (hooks (step s e)) with
  | IDLE => e = ClickCamera \/ exists i, e = Settle i ReplyFailure
  | RECORDING => exists clock frame, e = ClickCapture clock frame
  | ANALYZING =>
      (exists clock frame, e = ClickCapture clock frame)
      \/ exists i clock url, e = Settle i (ReplyData clock url)
  | VIEWING => (exists i, e = ClickHistoryItem i) \/ exists i r, e = Settle i r
  | EDITING => e = SubmitEdit
  | ERROR => False
  end.
Proof.
  unfold step. rewrite appState_commit. intros Hne.
  destruct e;
    match goal with
    | |- context [dispatch (Settle ?i ?r) s] =>
        change (dispatch (Settle i r) s) with (settle i r s) in *;
        destruct (appState_settle s i r)
          as [E | [[E ->] | [E | [E (clock & url & ->)]]]];
        [congruence | rewrite E; eauto ..]
    | |- context [dispatch ?e s] =>
        assert (Hev : forall i r, e <> Settle i r) by (intros ? ?; discriminate);
        destruct (appState_handlers s Hev)
          as [E | [[E H] | [[E H] | [[E H] | [[E | E] H]]]]];
        [congruence | rewrite E; eauto ..]
    end.
Qed.

Lemma states_are_entered_by_their_events_witness :
  SubmitEdit = SubmitEdit
  /\ ((exists i, Settle 0 (ReplyEdit Sample.edited) = ClickHistoryItem i)
      \/ exists i r, Settle 0 (ReplyEdit Sample.edited) = Settle i r).
Proof.
  split.
  - apply (@states_are_entered_by_their_events
             (step Sample.viewing (TypePrompt "make it blue")) SubmitEdit).
    intros E. vm_compute in E. discriminate E.
  - apply (@states_are_entered_by_their_events Sample.editing
             (Settle 0 (ReplyEdit Sample.edited))).
    intros E. vm_compute in E. discriminate E.
Defined.

Lemma appState_step_error (s : State) (e : Event) :
  appState (hooks s) <> ERROR -> appState (hooks (step s e)) <> ERROR.
Proof.
  intros Hs He. apply Hs.
  unfold step in He. rewrite appState_commit in He.
  destruct e;
    match goal with
    | H : context [dispatch (Settle ?i ?r) s] |- _ =>
        change (dispatch (Settle i r) s) with (settle i r s) in H;
        destruct (appState_settle s i r) as [E | [[E _] | [E | [E _]]]]; congruence
    | H : context [dispatch ?e s] |- _ =>
        assert (Hne : forall i r, e <> Settle i r) by (intros ? ?; discriminate);
        destruct (appState_handlers s Hne)
          as [E | [[E _] | [[E _] | [[E _] | [[E | E] _]]]]]; congruence
    end.
Qed.

(** X11.  The [ERROR] state is never reached: after any sequence of
    events from the mounted component the state is one of the other
    five. *)
Theorem error_state_is_unreachable (saved : list HistoryItem) (es : list Event) :
  appState (hooks (run (mount saved) es)) <> ERROR.
Proof.
  assert (H : forall es s, appState (hooks s) <> ERROR ->
                           appState (hooks (run s es)) <> ERROR).
  { clear es. induction es as [|e es IH]; intros s Hs; [exact Hs|].
    apply (IH (step s e)), appState_step_error, Hs. }
  apply H. discriminate.
Qed.

(** ** Choosing a file *)

(** X12.  When the read of a chosen file finishes, a file whose type
    starts with [video] becomes a video and is sent to [analyzeVideo];
    every other file, whatever its type, becomes an image and is sent to
    [analyzeImage].  Either way the request declares the type of the file
    and carries what follows the comma of the data URL, the state is
    [ANALYZING] and the history is as before. *)
Theorem chosen_file_is_classified_by_type (s : State) (i : nat)
  (fileType : string) (clock : Clock) (url : string) :
  nth_error (pending (browser s)) i = Some (AwaitReadFile fileType) ->
  let s' := step s (Settle i (ReplyData clock url)) in
  let isVideo := Js.startsWith "video" fileType in
  let file := newFile clock url fileType (if isVideo then video else image) in
  appState (hooks s') = ANALYZING
  /\ currentFile (hooks s') = Some file
  /\ history (hooks s') = history (hooks s)
  /\ calls (browser s')
     = calls (browser s)
       ++ [if isVideo then CallAnalyzeVideo (Js.after_comma url) fileType
           else CallAnalyzeImage (Js.after_comma url) fileType]
  /\ pending (browser s')
     = remove_nth i (pending (browser s))
       ++ [if isVideo then AwaitAnalyzeVideoFile file
           else AwaitAnalyzeImage file].
Proof.
  intros Ht s' isVideo file. subst s'.
  rewrite (settle_continues _ _ (ReplyData clock url) Ht eq_refl).
  rewrite appState_commit, currentFile_commit, history_commit, calls_commit.
  assert (Ha : appState (hooks (readFile_settled fileType (Resolved (clock, url))
                  (on_browser (fun b => b_pending (remove_nth i (pending b)) b) s)))
               = ANALYZING).
  { unfold readFile_settled. fold isVideo. destruct isVideo; reflexivity. }
  rewrite pending_commit by (rewrite Ha; discriminate).
  unfold readFile_settled. fold isVideo. fold file.
  destruct isVideo; repeat split.
Qed.

Lemma chosen_file_is_classified_by_type_witness :
  calls (browser (step (step Sample.viewing (ChangeFile (Some "application/pdf")))
                    (Settle 0 (ReplyData Sample.clock "data:application/pdf;base64,JVBE"))))
  = [CallAnalyzeImage (Some "AAAA") "image/jpeg";
     CallAnalyzeImage (Some "JVBE") "application/pdf"].
Proof.
  destruct (@chosen_file_is_classified_by_type
              (step Sample.viewing (ChangeFile (Some "application/pdf"))) 0
              "application/pdf" Sample.clock
              "data:application/pdf;base64,JVBE" eq_refl)
    as (_ & _ & _ & Hcalls & _).
  exact Hcalls.
Defined.

(** X13.  A chosen file that cannot be read, and a chosen video whose
    analysis fails, bring the state to [IDLE], not to the viewer: the
    message is "Failed to process file.", nothing is added to the history,
    and the current file stays what it was (for the failed analysis, the
    video that was chosen).  Choosing a file clears the edited image, the
    prompt and the message, and choosing none does nothing. *)
Theorem failed_upload_returns_to_idle (s : State) (i : nat) :
  (forall fileType,
      nth_error (pending (browser s)) i = Some (AwaitReadFile fileType) ->
      let s' := step s (Settle i ReplyFailure) in
      appState (hooks s') = IDLE
      /\ error (hooks s') = Some "Failed to process file."
      /\ history (hooks s') = history (hooks s)
      /\ currentFile (hooks s') = currentFile (hooks s))
  /\ (forall file,
      nth_error (pending (browser s)) i = Some (AwaitAnalyzeVideoFile file) ->
      let s' := step s (Settle i ReplyFailure) in
      appState (hooks s') = IDLE
      /\ error (hooks s') = Some "Failed to process file."
      /\ history (hooks s') = history (hooks s)
      /\ currentFile (hooks s') = currentFile (hooks s))
  /\ (forall fileType,
      let s' := step s (ChangeFile (Some fileType)) in
      editedImage (hooks s') = None
      /\ editPrompt (hooks s') = ""
      /\ error (hooks s') = None
      /\ appState (hooks s') = appState (hooks s)
      /\ pending (browser s') = pending (browser s) ++ [AwaitReadFile fileType])
  /\ dispatch (ChangeFile None) s = s.
Proof.
  split; [|split; [|split]].
  - intros fileType Ht s'. subst s'.
    rewrite (settle_continues _ _ ReplyFailure Ht eq_refl).
    rewrite appState_commit, error_commit, history_commit, currentFile_commit.
    repeat split.
  - intros file Ht s'. subst s'.
    rewrite (settle_continues _ _ ReplyFailure Ht eq_refl).
    rewrite appState_commit, error_commit, history_commit, currentFile_commit.
    repeat split.
  - intros fileType s'. subst s'. unfold step.
    rewrite editedImage_commit, editPrompt_commit, error_commit, appState_commit.
    repeat split. apply pending_commit_same; reflexivity.
  - reflexivity.
Qed.

Lemma failed_upload_returns_to_idle_witness :
  appState (hooks (step (step Sample.viewing (ChangeFile (Some "video/mp4")))
                     (Settle 0 ReplyFailure))) = IDLE.
Proof.
  destruct (@failed_upload_returns_to_idle
              (step Sample.viewing (ChangeFile (Some "video/mp4"))) 0)
    as (Hread & _).
  apply (Hread "video/mp4"). reflexivity.
Defined.

(** ** Recording *)

(** X14.  When the analysis of a recording settles the state is
    [VIEWING].  On success the current file is the recording with the
    result attached (its analysis is the result, its other fields are
    those of the recording) and that file is put at the front of the
    history; on failure the message is "Video analysis failed.", the
    history is as before and the current file is left as it was. *)
Theorem recording_analysis_settles_in_viewing (s : State) (i : nat)
  (file : ImageFile) (result : AnalysisResult) :
  nth_error (pending (browser s)) i = Some (AwaitAnalyzeVideoRec file) ->
  let ok := step s (Settle i (ReplyAnalysis result)) in
  let failed := step s (Settle i ReplyFailure) in
  appState (hooks ok) = VIEWING
  /\ currentFile (hooks ok) = Some (with_analysis file result)
  /\ history (hooks ok)
     = HistoryStore.addToHistory (with_analysis file result) (history (hooks s))
  /\ (exists shown,
        currentFile (hooks ok) = Some shown
        /\ hd_error (history (hooks ok)) = Some shown
        /\ analysis shown = Some result
        /\ id shown = id file
        /\ preview shown = preview file
        /\ raw shown = raw file
        /\ mimeType shown = mimeType file
        /\ timestamp shown = timestamp file
        /\ type shown = type file)
  /\ error (hooks ok) = error (hooks s)
  /\ appState (hooks failed) = VIEWING
  /\ error (hooks failed) = Some "Video analysis failed."
  /\ history (hooks failed) = history (hooks s)
  /\ currentFile (hooks failed) = currentFile (hooks s).
Proof.
  intros Ht ok failed. subst ok failed.
  rewrite (settle_continues _ _ (ReplyAnalysis result) Ht eq_refl).
  rewrite (settle_continues _ _ ReplyFailure Ht eq_refl).
  rewrite !appState_commit, !currentFile_commit, !history_commit, !error_commit.
  split; [reflexivity|]. split; [reflexivity|]. split; [reflexivity|]. split.
  { exists (with_analysis file result). split; [reflexivity|].
    split; [reflexivity|]. apply with_analysis_attaches. }
  repeat split.
Qed.

Lemma recording_analysis_settles_in_viewing_witness :
  history (hooks (step Scenario.recorded (Settle 0 (ReplyAnalysis Sample.insight))))
  = [with_analysis (newFile Scenario.later Scenario.clip "video/webm" video)
       Sample.insight]
  /\ (exists shown,
        currentFile (hooks (step Scenario.recorded (Settle 0 (ReplyAnalysis Sample.insight))))
        = Some shown
        /\ analysis shown = Some Sample.insight
        /\ preview shown = Scenario.clip)
  /\ error (hooks (step Scenario.recorded (Settle 0 ReplyFailure)))
     = Some "Video analysis failed.".
Proof.
  destruct (@recording_analysis_settles_in_viewing Scenario.recorded 0
              (newFile Scenario.later Scenario.clip "video/webm" video)
              Sample.insight eq_refl)
    as (_ & _ & Hh & (shown & Hs & _ & Ha & _ & Hp & _) & _ & _ & He & _).
  split; [exact Hh|]. split; [|exact He].
  exists shown. split; [exact Hs|]. split; [exact Ha | exact Hp].
Defined.

Lemma recorders_stopCamera o s :
  recorders (browser (stopCamera o s)) = recorders (browser s).
Proof.
  unfold stopCamera; unfold_setters.
  destruct o; simpl; break_match; reflexivity.
Qed.

Lemma intervals_stopCamera o s :
  intervals (browser (stopCamera o s)) = intervals (browser s).
Proof.
  unfold stopCamera; unfold_setters.
  destruct o; simpl; break_match; reflexivity.
Qed.

Lemma refs_stopCamera o s : refs (stopCamera o s) = refs s.
Proof.
  unfold stopCamera; unfold_setters.
  destruct o; simpl; break_match; reflexivity.
Qed.

Lemma recorders_commit a b :
  recorders (browser (commit a b)) = recorders (browser b).
Proof.
  unfold commit.
  set (b' := if videoMounted b then b else on_refs (r_videoSrc None) b).
  assert (Hb : recorders (browser b') = recorders (browser b))
    by (subst b'; destruct (videoMounted b); reflexivity).
  destruct (AppState_eqb _ _ && CaptureMode_eqb _ _); [exact Hb|].
  unfold cameraEffect, startCamera, cameraCleanup; unfold_setters; simpl.
  rewrite hooks_stopCamera.
  destruct (appState (hooks b')) eqn:E; simpl; try rewrite E; simpl;
    rewrite ?recorders_stopCamera; simpl; rewrite ?recorders_stopCamera; exact Hb.
Qed.

Lemma intervals_commit a b :
  intervals (browser (commit a b)) = intervals (browser b).
Proof.
  unfold commit.
  set (b' := if videoMounted b then b else on_refs (r_videoSrc None) b).
  assert (Hb : intervals (browser b') = intervals (browser b))
    by (subst b'; destruct (videoMounted b); reflexivity).
  destruct (AppState_eqb _ _ && CaptureMode_eqb _ _); [exact Hb|].
  unfold cameraEffect, startCamera, cameraCleanup; unfold_setters; simpl.
  rewrite hooks_stopCamera.
  destruct (appState (hooks b')) eqn:E; simpl; try rewrite E; simpl;
    rewrite ?intervals_stopCamera; simpl; rewrite ?intervals_stopCamera; exact Hb.
Qed.

(** Rendering writes no ref but [srcObject]. *)
Lemma refs_commit a b :
  mediaRecorderRef (refs (commit a b)) = mediaRecorderRef (refs b)
  /\ timerRef (refs (commit a b)) = timerRef (refs b)
  /\ videoTrackRef (refs (commit a b)) = videoTrackRef (refs b).
Proof.
  unfold commit.
  set (b' := if videoMounted b then b else on_refs (r_videoSrc None) b).
  assert (Hb : mediaRecorderRef (refs b') = mediaRecorderRef (refs b)
               /\ timerRef (refs b') = timerRef (refs b)
               /\ videoTrackRef (refs b') = videoTrackRef (refs b))
    by (subst b'; destruct (videoMounted b); repeat split).
  destruct (AppState_eqb _ _ && CaptureMode_eqb _ _); [exact Hb|].
  unfold cameraEffect, startCamera, cameraCleanup; unfold_setters; simpl.
  rewrite hooks_stopCamera.
  destruct (appState (hooks b')) eqn:E; simpl; try rewrite E; simpl;
    rewrite ?refs_stopCamera; simpl; rewrite ?refs_stopCamera; exact Hb.
Qed.

Lemma update_nth_same {A : Type} (f : A -> A) (l : list A) (n : nat) (x : A) :
  nth_error l n = Some x -> f x = x -> update_nth n f l = l.
Proof.
  revert n. induction l as [|y l IH]; intros [|n] Hn Hf; simpl in *;
    try discriminate.
  - injection Hn as ->. now rewrite Hf.
  - now rewrite (IH n Hn Hf).
Qed.

(** X15.  Pressing the capture button while recording asks the recorder
    to stop and disarms the clock, but the state stays [RECORDING] until
    the recorder has flushed: nothing is requested or awaited yet, and a
    further press changes no recorder. *)
Theorem stop_press_waits_for_the_recorder (s : State) (clock : Clock)
  (frame : option string) (r t : nat) :
  captureMode (hooks s) = VIDEO ->
  appState (hooks s) = RECORDING ->
  cameraError (hooks s) = false ->
  mediaRecorderRef (refs s) = Some r ->
  timerRef (refs s) = Some t ->
  nth_error (recorders (browser s)) r = Some RecRecording ->
  let pressed := step s (ClickCapture clock frame) in
  appState (hooks pressed) = RECORDING
  /\ nth_error (recorders (browser pressed)) r = Some RecStopping
  /\ nth_error (intervals (browser pressed)) t
     = option_map (fun _ => false) (nth_error (intervals (browser s)) t)
  /\ calls (browser pressed) = calls (browser s)
  /\ pending (browser pressed) = pending (browser s)
  /\ recorders (browser (step pressed (ClickCapture clock frame)))
     = recorders (browser pressed).
Proof.
  intros Hm Ha Hc Hr Htimer Hrec pressed.
  assert (Hd : forall x, captureMode (hooks x) = VIDEO ->
                 appState (hooks x) = RECORDING ->
                 cameraError (hooks x) = false ->
                 dispatch (ClickCapture clock frame) x = stopRecording x).
  { intros x Hxm Hxa Hxc. unfold dispatch, cameraScreen, handleCapture.
    rewrite Hxa, Hxc, Hxm. reflexivity. }
  assert (Hs : stopRecording s
               = clearInterval t
                   (on_browser (fun b => b_recorders
                      (update_nth r stopRecorder (recorders b)) b) s)).
  { unfold stopRecording. rewrite Hr, Ha. simpl. now rewrite Htimer. }
  assert (Hp : pressed = commit s (stopRecording s)).
  { subst pressed. unfold step. now rewrite Hd. }
  assert (Hrec' : nth_error (recorders (browser pressed)) r = Some RecStopping).
  { rewrite Hp, recorders_commit, Hs. unfold_setters; simpl.
    rewrite nth_error_update_nth, Nat.eqb_refl, Hrec. reflexivity. }
  assert (Ha' : appState (hooks pressed) = RECORDING).
  { rewrite Hp, appState_commit, Hs. exact Ha. }
  split; [exact Ha'|]. split; [exact Hrec'|]. split; [|split; [|split]].
  - rewrite Hp, intervals_commit, Hs. unfold_setters; simpl.
    rewrite nth_error_update_nth, Nat.eqb_refl. reflexivity.
  - rewrite Hp, calls_commit, Hs. reflexivity.
  - rewrite Hp, pending_commit_same; rewrite Hs; reflexivity.
  - unfold step at 1. rewrite recorders_commit, Hd.
    + unfold stopRecording.
      destruct (mediaRecorderRef (refs pressed)) as [r'|] eqn:Hr'; [|reflexivity].
      rewrite Ha'. simpl.
      assert (r' = r).
      { destruct (refs_commit s (stopRecording s)) as (Hmr & _).
        rewrite <- Hp, Hr', Hs in Hmr. simpl in Hmr. congruence. }
      subst r'.
      destruct (timerRef (refs pressed)); unfold_setters; simpl;
        apply (update_nth_same _ _ _ Hrec'); reflexivity.
    + rewrite Hp, (commit_cell captureMode) by reflexivity.
      rewrite Hs. exact Hm.
    + exact Ha'.
    + rewrite Hp.
      destruct (hooks_commit s (stopRecording s)) as [H | [Hi H]]; rewrite H.
      * rewrite Hs. exact Hc.
      * reflexivity.
Qed.

Lemma stop_press_waits_for_the_recorder_witness :
  appState (hooks Scenario.stopping) = RECORDING
  /\ recorders (browser Scenario.stopping) = [RecStopping]
  /\ intervals (browser Scenario.stopping) = [false].
Proof.
  destruct (@stop_press_waits_for_the_recorder Sample.recording Sample.clock None
              0 0 eq_refl eq_refl eq_refl eq_refl eq_refl eq_refl)
    as (Ha & _).
  split; [exact Ha | split; reflexivity].
Defined.

(** X16.  The [stop] event of a recorder that is recording or stopping
    runs the [onstop] handler, which queues one read of the clip and
    writes nothing else: the state, the current file, the requests made
    and the recording clock with its interval are as before, and the
    recorder is inactive afterwards.  The handler does not look at the
    state or at who ended the recording: when the browser ends it by
    itself the clip is read all the same, in [RECORDING] and with the
    interval still armed. *)
Theorem stop_event_queues_one_read (s : State) (r : nat) (recorder : Recorder) :
  nth_error (recorders (browser s)) r = Some recorder ->
  recorder <> RecInactive ->
  let flushed := step s (RecorderStopped r) in
  pending (browser flushed) = pending (browser s) ++ [AwaitReadRecording]
  /\ nth_error (recorders (browser flushed)) r = Some RecInactive
  /\ appState (hooks flushed) = appState (hooks s)
  /\ currentFile (hooks flushed) = currentFile (hooks s)
  /\ error (hooks flushed) = error (hooks s)
  /\ recordingTime (hooks flushed) = recordingTime (hooks s)
  /\ calls (browser flushed) = calls (browser s)
  /\ intervals (browser flushed) = intervals (browser s)
  /\ timerRef (refs flushed) = timerRef (refs s)
  /\ mediaRecorderRef (refs flushed) = mediaRecorderRef (refs s).
Proof.
  intros Hr Hactive flushed.
  assert (Hd : dispatch (RecorderStopped r) s
               = recorder_onstop
                   (on_browser (fun b => b_recorders
                      (update_nth r (fun _ => RecInactive) (recorders b)) b) s)).
  { unfold dispatch, fireStop. rewrite Hr. destruct recorder; congruence. }
  subst flushed. unfold step.
  destruct (refs_commit s (dispatch (RecorderStopped r) s)) as (Hm & Ht & _).
  rewrite recorders_commit, appState_commit, currentFile_commit, error_commit,
    (commit_cell recordingTime), calls_commit, intervals_commit, Hm, Ht
    by reflexivity.
  rewrite pending_commit_same; rewrite Hd; try reflexivity.
  unfold recorder_onstop; unfold_setters; simpl.
  rewrite nth_error_update_nth, Nat.eqb_refl, Hr. repeat split.
Qed.

Lemma stop_event_queues_one_read_witness :
  pending (browser Scenario.flushed) = [AwaitReadRecording]
  /\ pending (browser Scenario.endedByBrowser) = [AwaitReadRecording]
  /\ appState (hooks Scenario.endedByBrowser) = RECORDING
  /\ intervals (browser Scenario.endedByBrowser) = [true].
Proof.
  destruct (@stop_event_queues_one_read Scenario.stopping 0 RecStopping eq_refl)
    as (Hp & _); [discriminate|].
  destruct (@stop_event_queues_one_read Sample.recording 0 RecRecording eq_refl)
    as (Hp' & _ & Ha & _ & _ & _ & _ & Hi & _); [discriminate|].
  split; [exact Hp|]. split; [exact Hp'|]. split; [exact Ha | exact Hi].
Defined.

(** X17.  When the clip of a recording has been read it becomes the
    current file, a [video/webm] video, the state is [ANALYZING] and one
    [analyzeVideo] request is made for it.  When the read fails nothing
    is reported: state, file, message and history are as before, and no
    request is made. *)
Theorem recorded_clip_is_analysed (s : State) (i : nat) :
  nth_error (pending (browser s)) i = Some AwaitReadRecording ->
  (forall clock url,
      let s' := step s (Settle i (ReplyData clock url)) in
      let file := newFile clock url "video/webm" video in
      appState (hooks s') = ANALYZING
      /\ currentFile (hooks s') = Some file
      /\ history (hooks s') = history (hooks s)
      /\ calls (browser s')
         = calls (browser s) ++ [CallAnalyzeVideo (Js.after_comma url) "video/webm"]
      /\ pending (browser s')
         = remove_nth i (pending (browser s)) ++ [AwaitAnalyzeVideoRec file])
  /\ (let s' := step s (Settle i ReplyFailure) in
      appState (hooks s') = appState (hooks s)
      /\ currentFile (hooks s') = currentFile (hooks s)
      /\ error (hooks s') = error (hooks s)
      /\ history (hooks s') = history (hooks s)
      /\ calls (browser s') = calls (browser s)
      /\ pending (browser s') = remove_nth i (pending (browser s))).
Proof.
  intros Ht. split.
  - intros clock url s' file. subst s'.
    rewrite (settle_continues _ _ (ReplyData clock url) Ht eq_refl).
    rewrite appState_commit, currentFile_commit, history_commit, calls_commit.
    rewrite pending_commit by (simpl; discriminate).
    repeat split.
  - cbv zeta.
    rewrite (settle_continues _ _ ReplyFailure Ht eq_refl).
    rewrite appState_commit, currentFile_commit, history_commit, calls_commit,
      error_commit.
    repeat split. apply pending_commit_same; reflexivity.
Qed.

Lemma recorded_clip_is_analysed_witness :
  calls (browser Scenario.recorded) = [CallAnalyzeVideo (Some "CCCC") "video/webm"]
  /\ appState (hooks (step Scenario.flushed (Settle 0 ReplyFailure))) = RECORDING.
Proof.
  destruct (@recorded_clip_is_analysed Scenario.flushed 0 eq_refl) as (Hok & Hko).
  destruct (Hok Scenario.later Scenario.clip) as (_ & _ & _ & Hc & _).
  destruct Hko as (Ha & _).
  split; [exact Hc | exact Ha].
Defined.

(** ** The camera *)

(** Stopping the camera writes nothing but the streams. *)
Lemma stopCamera_only_streams (o : option nat) (s : State) :
  stopCamera o s
  = on_browser (b_streams (streams (browser (stopCamera o s)))) s.
Proof.
  unfold stopCamera; unfold_setters.
  destruct s as [h r b]; destruct b; destruct o; simpl;
    destruct (videoTrackRef r); reflexivity.
Qed.

Lemma stopCamera_held (n : nat) (s : State) (m : Stream) :
  nth_error (streams (browser s)) n = Some m ->
  nth_error (streams (browser (stopCamera (Some n) s))) n = Some stopped.
Proof.
  intros Hm. unfold stopCamera; unfold_setters. simpl.
  destruct (videoTrackRef (refs s)) as [j|]; simpl;
    rewrite ?nth_error_update_nth, ?Nat.eqb_refl, ?Hm;
    try destruct (Nat.eqb n j); simpl;
    rewrite ?nth_error_update_nth, ?Nat.eqb_refl, ?Hm; reflexivity.
Qed.

Lemma cameraEffect_keeps_stopped (n : nat) (s : State) :
  nth_error (streams (browser s)) n = Some stopped ->
  nth_error (streams (browser (cameraEffect s))) n = Some stopped.
Proof.
  intros H. unfold cameraEffect, startCamera; unfold_setters; simpl.
  destruct (appState (hooks s)) eqn:E; simpl; try rewrite E; simpl;
    try exact H; apply dead_stopCamera; exact H.
Qed.

(** What rendering does when [appState] or [captureMode] changed. *)
Lemma commit_changed (a b : State) :
  AppState_eqb (appState (hooks a)) (appState (hooks b))
  && CaptureMode_eqb (captureMode (hooks a)) (captureMode (hooks b)) = false ->
  commit a b
  = cameraEffect (cameraCleanup
      (if videoMounted b then b else on_refs (r_videoSrc None) b)).
Proof.
  intros H. unfold commit.
  set (b' := if videoMounted b then b else on_refs (r_videoSrc None) b).
  assert (Hh : hooks b' = hooks b)
    by (subst b'; destruct (videoMounted b); reflexivity).
  rewrite Hh, H. reflexivity.
Qed.

Lemma commit_stops_held_stream (a b : State) (n : nat) (m : Stream) :
  AppState_eqb (appState (hooks a)) (appState (hooks b))
  && CaptureMode_eqb (captureMode (hooks a)) (captureMode (hooks b)) = false ->
  effectStream (browser b) = Some n ->
  nth_error (streams (browser b)) n = Some m ->
  nth_error (streams (browser (commit a b))) n = Some stopped.
Proof.
  intros Hd Hn Hm. rewrite (commit_changed a b Hd).
  set (b' := if videoMounted b then b else on_refs (r_videoSrc None) b).
  assert (Hs : browser b' = browser b)
    by (subst b'; destruct (videoMounted b); reflexivity).
  apply cameraEffect_keeps_stopped. unfold cameraCleanup. rewrite Hs, Hn.
  apply (stopCamera_held n b' (m := m)). now rewrite Hs.
Qed.

(** A handler either leaves the streams and the stream of the effect
    alone or leaves [appState] and [captureMode] alone. *)
Lemma dispatch_streams_or_deps (s : State) (e : Event) :
  (streams (browser (dispatch e s)) = streams (browser s)
   /\ effectStream (browser (dispatch e s)) = effectStream (browser s))
  \/ (appState (hooks (dispatch e s)) = appState (hooks s)
      /\ captureMode (hooks (dispatch e s)) = captureMode (hooks s)).
Proof.
  destruct e; unfold dispatch, settle;
    try (destruct (nth_error (pending (browser s)) i) as [[] |];
         [destruct r; simpl continuation .. | ]);
    unfold_handlers; unfold_continuations; unfold_setters;
    repeat (break_match; simpl); auto.
Qed.

(** X18.  Every event that changes [appState] or [captureMode] releases
    the stream the camera effect holds: afterwards that stream has no live
    track, whatever the new state is ([RECORDING] included). *)
Theorem state_change_stops_the_held_stream (s : State) (e : Event) (n : nat)
  (m : Stream) :
  effectStream (browser s) = Some n ->
  nth_error (streams (browser s)) n = Some m ->
  appState (hooks (step s e)) <> appState (hooks s)
  \/ captureMode (hooks (step s e)) <> captureMode (hooks s) ->
  nth_error (streams (browser (step s e))) n = Some stopped.
Proof.
  intros Hn Hm Hch. unfold step in *.
  rewrite appState_commit, (commit_cell captureMode) in Hch by reflexivity.
  destruct (dispatch_streams_or_deps s e) as [[Hs He] | [Ha Hc]].
  - apply commit_stops_held_stream with (m := m); [|congruence|congruence].
    apply andb_false_iff.
    destruct Hch as [H | H]; [left | right].
    + destruct (appState (hooks s)), (appState (hooks (dispatch e s)));
        try reflexivity; congruence.
    + destruct (captureMode (hooks s)), (captureMode (hooks (dispatch e s)));
        try reflexivity; congruence.
  - destruct Hch; congruence.
Qed.

Lemma state_change_stops_the_held_stream_witness :
  nth_error (streams (browser (step Sample.videoReady (ClickMode PHOTO)))) 1
  = Some stopped.
Proof.
  apply (@state_change_stops_the_held_stream Sample.videoReady (ClickMode PHOTO) 1
           {| videoLive := true; audioLive := true |}).
  - reflexivity.
  - reflexivity.
  - right. intros E. vm_compute in E. discriminate E.
Defined.

Lemma commit_into_idle (a b : State) :
  AppState_eqb (appState (hooks a)) (appState (hooks b))
  && CaptureMode_eqb (captureMode (hooks a)) (captureMode (hooks b)) = false ->
  appState (hooks b) = IDLE ->
  pending (browser (commit a b))
  = pending (browser b)
    ++ [AwaitGetUserMedia (S (effectInst (browser b)))
          (CaptureMode_eqb (captureMode (hooks b)) VIDEO)]
  /\ cameraError (hooks (commit a b)) = false
  /\ effectStream (browser (commit a b)) = None
  /\ effectInst (browser (commit a b)) = S (effectInst (browser b)).
Proof.
  intros Hd Hi. rewrite (commit_changed a b Hd).
  set (b' := if videoMounted b then b else on_refs (r_videoSrc None) b).
  assert (Hh : hooks b' = hooks b)
    by (subst b'; destruct (videoMounted b); reflexivity).
  assert (Hs : browser b' = browser b)
    by (subst b'; destruct (videoMounted b); reflexivity).
  unfold cameraCleanup. rewrite stopCamera_only_streams.
  unfold cameraEffect, startCamera; unfold_setters; simpl.
  rewrite Hh, Hi, Hs. simpl. repeat split.
Qed.

(** X19.  The camera is requested by rendering exactly when [appState]
    or [captureMode] changed and the new state is [IDLE]: then one
    [getUserMedia] request is queued behind what the handler queued, with
    audio exactly in video mode, and a camera error is forgotten.  After a
    change into any other state nothing is requested. *)
Theorem camera_is_requested_on_entering_idle (s : State) (e : Event) :
  appState (hooks (step s e)) <> appState (hooks s)
  \/ captureMode (hooks (step s e)) <> captureMode (hooks s) ->
  (appState (hooks (step s e)) = IDLE ->
   pending (browser (step s e))
   = pending (browser (dispatch e s))
     ++ [AwaitGetUserMedia (effectInst (browser (step s e)))
           (CaptureMode_eqb (captureMode (hooks (step s e))) VIDEO)]
   /\ cameraError (hooks (step s e)) = false
   /\ effectStream (browser (step s e)) = None)
  /\ (appState (hooks (step s e)) <> IDLE ->
      pending (browser (step s e)) = pending (browser (dispatch e s))).
Proof.
  intros Hch. unfold step in *.
  rewrite appState_commit, (commit_cell captureMode) in * by reflexivity.
  split.
  - intros Hi.
    assert (Hd : AppState_eqb (appState (hooks s)) (appState (hooks (dispatch e s)))
                 && CaptureMode_eqb (captureMode (hooks s))
                      (captureMode (hooks (dispatch e s))) = false).
    { apply andb_false_iff. destruct Hch as [H | H]; [left | right].
      - destruct (appState (hooks s)), (appState (hooks (dispatch e s)));
          try reflexivity; congruence.
      - destruct (captureMode (hooks s)), (captureMode (hooks (dispatch e s)));
          try reflexivity; congruence. }
    destruct (commit_into_idle s (dispatch e s) Hd Hi) as (Hp & Hc & Hs & Hn).
    rewrite Hp, Hn. auto.
  - intros Hi. apply pending_commit. exact Hi.
Qed.

Lemma camera_is_requested_on_entering_idle_witness :
  pending (browser (step Sample.viewing ClickCamera)) = [AwaitGetUserMedia 4 false]
  /\ pending (browser (step Sample.videoReady (ClickMode PHOTO)))
     = [AwaitGetUserMedia 3 false].
Proof.
  destruct (@camera_is_requested_on_entering_idle Sample.viewing ClickCamera)
    as (H1 & _); [left; intros E; vm_compute in E; discriminate E|].
  destruct (@camera_is_requested_on_entering_idle Sample.videoReady (ClickMode PHOTO))
    as (H2 & _); [right; intros E; vm_compute in E; discriminate E|].
  split.
  - apply H1. reflexivity.
  - apply H2. reflexivity.
Defined.

(** X20.  The Camera button of the viewer returns to the camera screen:
    the current file, the edited image and the prompt are dropped and the
    recording clock is at zero, while the history, the message in [error],
    the requests made and the calls outstanding stay as they are. *)
Theorem reset_keeps_history_and_calls (s : State) :
  viewerScreen s = true ->
  let s' := step s ClickCamera in
  appState (hooks s') = IDLE
  /\ currentFile (hooks s') = None
  /\ editedImage (hooks s') = None
  /\ editPrompt (hooks s') = ""
  /\ recordingTime (hooks s') = 0
  /\ history (hooks s') = history (hooks s)
  /\ error (hooks s') = error (hooks s)
  /\ calls (browser s') = calls (browser s)
  /\ filter (fun t => match t with AwaitGetUserMedia _ _ => false | _ => true end)
       (pending (browser s'))
     = filter (fun t => match t with AwaitGetUserMedia _ _ => false | _ => true end)
         (pending (browser s))
  /\ displayed s' = None.
Proof.
  intros Hv s'.
  assert (Hd : dispatch ClickCamera s = resetApp s)
    by (unfold dispatch; now rewrite Hv).
  assert (Hne : appState (hooks s) <> IDLE).
  { unfold viewerScreen in Hv. destruct (appState (hooks s)); congruence. }
  assert (Hch : AppState_eqb (appState (hooks s)) (appState (hooks (resetApp s)))
                && CaptureMode_eqb (captureMode (hooks s))
                     (captureMode (hooks (resetApp s))) = false).
  { simpl. destruct (appState (hooks s)); try reflexivity; congruence. }
  destruct (commit_into_idle s (resetApp s) Hch eq_refl) as (Hp & _).
  subst s'. unfold step.
  rewrite appState_commit, currentFile_commit, editedImage_commit,
    editPrompt_commit, (commit_cell recordingTime), history_commit, error_commit,
    calls_commit, displayed_commit, Hd, Hp by reflexivity.
  rewrite filter_app. simpl. rewrite app_nil_r.
  repeat split.
Qed.

Lemma reset_keeps_history_and_calls_witness :
  history (hooks (step Sample.editing ClickCamera))
  = [with_analysis Sample.photo Sample.insight]
  /\ filter (fun t => match t with AwaitGetUserMedia _ _ => false | _ => true end)
       (pending (browser (step Sample.editing ClickCamera)))
     = [AwaitEditImage].
Proof.
  destruct (@reset_keeps_history_and_calls Sample.editing eq_refl)
    as (_ & _ & _ & _ & _ & Hh & _ & _ & Hp & _).
  split; [exact Hh | exact Hp].
Defined.

(** ** A microphone that is never released *)

Lemma dispatch_streams (s : State) (e : Event) :
  (streams (browser (dispatch e s)) = streams (browser s)
   /\ effectStream (browser (dispatch e s)) = effectStream (browser s))
  \/ (exists m, streams (browser (dispatch e s)) = streams (browser s) ++ [m])
     /\ (effectStream (browser (dispatch e s)) = effectStream (browser s)
         \/ effectStream (browser (dispatch e s))
            = Some (List.length (streams (browser s)))).
Proof.
  destruct e; unfold dispatch, settle;
    try (destruct (nth_error (pending (browser s)) i) as [[] |];
         [destruct r; simpl continuation .. | ]);
    unfold_handlers; unfold_continuations; unfold_setters;
    repeat (break_match; simpl); eauto.
Qed.

Lemma micLeaked_dispatch (n : nat) (s : State) (e : Event) :
  micLeaked n s -> micLeaked n (dispatch e s).
Proof.
  intros [(m & Hm & Ha) He].
  assert (Hlt : n < List.length (streams (browser s)))
    by (apply nth_error_Some; congruence).
  destruct (dispatch_streams s e) as [[Hs Hf] | [(x & Hs) Hf]]; unfold micLeaked;
    rewrite Hs.
  - rewrite Hf. split; [exists m; auto | exact He].
  - split.
    + exists m. rewrite nth_error_app1 by exact Hlt. auto.
    + destruct Hf as [-> | ->]; [exact He|]. intros [= E]. lia.
Qed.

Lemma stopCamera_keeps_audio (o : option nat) (n : nat) (s : State) :
  o <> Some n ->
  (exists m, nth_error (streams (browser s)) n = Some m /\ audioLive m = true) ->
  exists m, nth_error (streams (browser (stopCamera o s))) n = Some m
            /\ audioLive m = true.
Proof.
  intros Ho (m & Hm & Ha). unfold stopCamera; unfold_setters.
  destruct o as [k|]; simpl.
  - assert (Hk : Nat.eqb n k = false) by (apply Nat.eqb_neq; congruence).
    destruct (videoTrackRef (refs s)) as [j|]; simpl;
      rewrite ?nth_error_update_nth; try destruct (Nat.eqb n j);
      rewrite ?nth_error_update_nth, ?Hk, ?Hm; simpl; eauto.
  - destruct (videoTrackRef (refs s)) as [j|]; simpl;
      rewrite ?nth_error_update_nth; try destruct (Nat.eqb n j);
      rewrite ?Hm; simpl; eauto.
Qed.

Lemma micLeaked_commit (n : nat) (a b : State) :
  micLeaked n b -> micLeaked n (commit a b).
Proof.
  intros [Hm He]. unfold commit.
  set (b' := if videoMounted b then b else on_refs (r_videoSrc None) b).
  assert (Hs : browser b' = browser b)
    by (subst b'; destruct (videoMounted b); reflexivity).
  assert (Hh : hooks b' = hooks b)
    by (subst b'; destruct (videoMounted b); reflexivity).
  rewrite Hh.
  destruct (AppState_eqb _ _ && CaptureMode_eqb _ _).
  - unfold micLeaked. rewrite Hs. auto.
  - assert (Hc : exists m, nth_error (streams (browser (cameraCleanup b'))) n = Some m
                           /\ audioLive m = true).
    { unfold cameraCleanup. apply stopCamera_keeps_audio; rewrite Hs; auto. }
    unfold micLeaked, cameraEffect, startCamera; unfold_setters; simpl.
    destruct (appState (hooks (cameraCleanup b'))); simpl; split;
      try exact Hc; try discriminate;
      try (apply (stopCamera_keeps_audio (o := None));
           [discriminate | exact Hc]);
      rewrite stopCamera_only_streams; simpl; discriminate.
Qed.

Lemma micLeaked_run (n : nat) (es : list Event) (s : State) :
  micLeaked n s -> micLeaked n (run s es).
Proof.
  revert s. induction es as [|e es IH]; intros s H; [exact H|].
  apply (IH (step s e)). unfold step. apply micLeaked_commit, micLeaked_dispatch, H.
Qed.

(** X21.  A camera grant that arrives for a run of the camera effect
    that has been superseded (the state or the mode changed while the
    request was outstanding) is kept by no cleanup: when it was asked with
    audio, its microphone track is live afterwards and stays live, and the
    device stays held, through every later sequence of events. *)
Theorem late_grant_leaves_the_microphone_on (s : State) (i inst : nat) :
  nth_error (pending (browser s)) i = Some (AwaitGetUserMedia inst true) ->
  inst <> effectInst (browser s) ->
  effectStream (browser s) <> Some (List.length (streams (browser s))) ->
  let n := List.length (streams (browser s)) in
  forall es,
    micLeaked n (run (step s (Settle i ReplyGranted)) es)
    /\ cameraHeld (run (step s (Settle i ReplyGranted)) es) = true.
Proof.
  intros Ht Hinst Heff n es.
  assert (H0 : micLeaked n (step s (Settle i ReplyGranted))).
  { unfold step. apply micLeaked_commit.
    unfold dispatch, settle. rewrite Ht. simpl continuation.
    unfold startCamera_settled; unfold_setters; simpl.
    apply Nat.eqb_neq in Hinst. rewrite Hinst.
    unfold micLeaked. subst n.
    destruct (videoMounted _); simpl;
      (split; [|exact Heff]);
      exists {| videoLive := true; audioLive := true |};
      rewrite nth_error_app2, Nat.sub_diag by lia; auto. }
  pose proof (micLeaked_run es H0) as [(m & Hm & Ha) He].
  split; [split; [exists m; auto | exact He]|].
  unfold cameraHeld. apply existsb_exists. exists m.
  split; [eapply nth_error_In; exact Hm|]. rewrite Ha. apply orb_true_r.
Qed.

Lemma late_grant_leaves_the_microphone_on_witness :
  cameraHeld
    (run Scenario.lateGrant
       [Settle 0 ReplyGranted; ClickCapture Sample.clock (Some Sample.frame);
        Settle 0 (ReplyAnalysis Sample.insight)]) = true.
Proof.
  destruct (@late_grant_leaves_the_microphone_on
              (run (mount []) [ClickMode VIDEO; ClickMode PHOTO]) 1 2
              eq_refl ltac:(intros E; vm_compute in E; discriminate E)
              ltac:(intros E; vm_compute in E; discriminate E)
              [Settle 0 ReplyGranted; ClickCapture Sample.clock (Some Sample.frame);
               Settle 0 (ReplyAnalysis Sample.insight)])
    as (_ & H).
  exact H.
Defined.

(** ** The capture button *)

Lemma commit_unchanged (a b : State) :
  appState (hooks b) = appState (hooks a) ->
  captureMode (hooks b) = captureMode (hooks a) ->
  commit a b = if videoMounted b then b else on_refs (r_videoSrc None) b.
Proof.
  intros Ha Hm. unfold commit.
  set (b' := if videoMounted b then b else on_refs (r_videoSrc None) b).
  assert (Hh : hooks b' = hooks b)
    by (subst b'; destruct (videoMounted b); reflexivity).
  rewrite Hh, Ha, Hm.
  destruct (appState (hooks a)), (captureMode (hooks a)); reflexivity.
Qed.

(** X22.  When the camera is refused the camera error is set, the video
    element and its stream are gone, and the capture button is no longer
    rendered: a press does nothing.  A press also does nothing outside the
    camera screen, in photo mode when the canvas gives no context, and in
    video mode when no stream is attached to the video element. *)
Theorem capture_needs_the_camera (s : State) (clock : Clock) (frame : option string) :
  (forall i inst audio,
      nth_error (pending (browser s)) i = Some (AwaitGetUserMedia inst audio) ->
      let denied := step s (Settle i ReplyFailure) in
      cameraError (hooks denied) = true
      /\ videoSrc (refs denied) = None
      /\ appState (hooks denied) = appState (hooks s)
      /\ dispatch (ClickCapture clock frame) denied = denied)
  /\ (cameraScreen s = false -> dispatch (ClickCapture clock frame) s = s)
  /\ (captureMode (hooks s) = PHOTO -> dispatch (ClickCapture clock None) s = s)
  /\ (captureMode (hooks s) = VIDEO -> appState (hooks s) = IDLE ->
      videoSrc (refs s) = None -> dispatch (ClickCapture clock frame) s = s).
Proof.
  split; [|split; [|split]].
  - intros i inst audio Ht denied.
    assert (Hd : denied
                 = on_refs (r_videoSrc None)
                     (setCameraError true
                        (on_browser (fun b => b_pending (remove_nth i (pending b)) b) s))).
    { subst denied.
      rewrite (settle_continues _ _ ReplyFailure Ht eq_refl).
      rewrite commit_unchanged by reflexivity.
      unfold videoMounted. simpl. now rewrite andb_false_r. }
    rewrite Hd. repeat split.
    unfold dispatch. simpl. now rewrite andb_false_r.
  - intros Hc. unfold dispatch. now rewrite Hc.
  - intros Hm. unfold dispatch, handleCapture, capturePhoto. rewrite Hm.
    destruct (cameraScreen s && _); [|reflexivity].
    destruct (negb (videoMounted s)); reflexivity.
  - intros Hm Hi Hv. unfold dispatch, handleCapture, startRecording.
    rewrite Hm, Hi, Hv.
    destruct (cameraScreen s && _); [|reflexivity].
    destruct (negb (videoMounted s)); reflexivity.
Qed.

Lemma capture_needs_the_camera_witness :
  cameraError (hooks (step (mount []) (Settle 0 ReplyFailure))) = true
  /\ dispatch (ClickCapture Sample.clock (Some Sample.frame))
       (step (mount []) (Settle 0 ReplyFailure))
     = step (mount []) (Settle 0 ReplyFailure)
  /\ dispatch (ClickCapture Sample.clock None) (setCaptureMode VIDEO (mount []))
     = setCaptureMode VIDEO (mount []).
Proof.
  destruct (capture_needs_the_camera (mount []) Sample.clock (Some Sample.frame))
    as (Hden & _).
  destruct (Hden 0 1 false eq_refl) as (He & _ & _ & Hd).
  destruct (capture_needs_the_camera (setCaptureMode VIDEO (mount [])) Sample.clock None)
    as (_ & _ & _ & Hv).
  split; [exact He|]. split; [exact Hd|].
  apply Hv; reflexivity.
Defined.

(** X23.  In photo mode the capture button takes a photo in every
    state of the camera screen: the photo is the current file, one
    [analyzeImage] request is made for it as [image/jpeg], and the state
    is [ANALYZING].  The edited image and the message are not cleared, and
    a recording that runs (the mode buttons are rendered then) is left
    recording with its clock armed. *)
Theorem photo_is_taken_in_any_camera_state (s : State) (clock : Clock)
  (frame : string) :
  captureMode (hooks s) = PHOTO ->
  cameraScreen s = true ->
  cameraError (hooks s) = false ->
  let s' := step s (ClickCapture clock (Some frame)) in
  let file := newFile clock frame "image/jpeg" image in
  appState (hooks s') = ANALYZING
  /\ currentFile (hooks s') = Some file
  /\ calls (browser s')
     = calls (browser s) ++ [CallAnalyzeImage (Js.after_comma frame) "image/jpeg"]
  /\ pending (browser s') = pending (browser s) ++ [AwaitAnalyzeImage file]
  /\ editedImage (hooks s') = editedImage (hooks s)
  /\ error (hooks s') = error (hooks s)
  /\ recorders (browser s') = recorders (browser s)
  /\ intervals (browser s') = intervals (browser s)
  /\ mediaRecorderRef (refs s') = mediaRecorderRef (refs s).
Proof.
  intros Hm Ha Hc s' file.
  assert (Hd : dispatch (ClickCapture clock (Some frame)) s
               = performAnalysis file (setCurrentFile (Some file) s)).
  { unfold dispatch, handleCapture, capturePhoto, videoMounted.
    rewrite Hm, Ha, Hc. reflexivity. }
  subst s'. unfold step.
  destruct (refs_commit s (dispatch (ClickCapture clock (Some frame)) s)) as (Hr & _).
  rewrite appState_commit, currentFile_commit, recorders_commit, intervals_commit,
    calls_commit, editedImage_commit, error_commit, Hr, Hd.
  rewrite pending_commit by (simpl; discriminate).
  repeat split.
Qed.

Lemma photo_is_taken_in_any_camera_state_witness :
  appState (hooks (run Sample.recording
                     [ClickMode PHOTO; ClickCapture Sample.clock (Some Sample.frame)]))
  = ANALYZING
  /\ recorders (browser (run Sample.recording
                     [ClickMode PHOTO; ClickCapture Sample.clock (Some Sample.frame)]))
     = [RecRecording].
Proof.
  destruct (@photo_is_taken_in_any_camera_state
              (step Sample.recording (ClickMode PHOTO)) Sample.clock Sample.frame
              eq_refl eq_refl eq_refl)
    as (Ha & _ & _ & _ & _ & _ & Hr & _).
  split; [exact Ha | exact Hr].
Defined.

(** ** Counting the seconds *)

Lemma tick_armed (s : State) (t : nat) :
  nth_error (intervals (browser s)) t = Some true ->
  recordingTime (hooks (step s (Tick t))) = S (recordingTime (hooks s))
  /\ intervals (browser (step s (Tick t))) = intervals (browser s)
  /\ appState (hooks (step s (Tick t))) = appState (hooks s).
Proof.
  intros Ht. unfold step.
  rewrite (commit_cell recordingTime), intervals_commit, appState_commit by reflexivity.
  unfold dispatch. rewrite Ht. repeat split.
Qed.

(** X24.  While its interval is armed every tick adds one second to the
    recording clock and changes neither the state nor the interval, so
    [k] ticks add [k] seconds; a tick of an interval that was cleared, or
    of none, does nothing. *)
Theorem ticks_count_the_seconds (s : State) (t : nat) :
  (nth_error (intervals (browser s)) t = Some true ->
   forall k,
     recordingTime (hooks (run s (repeat (Tick t) k))) = recordingTime (hooks s) + k
     /\ appState (hooks (run s (repeat (Tick t) k))) = appState (hooks s))
  /\ (nth_error (intervals (browser s)) t <> Some true ->
      dispatch (Tick t) s = s).
Proof.
  split.
  - intros Ht k. revert s Ht. induction k as [|k IH]; intros s Ht.
    + change (run s (repeat (Tick t) 0)) with s. split; [lia | reflexivity].
    + change (run s (repeat (Tick t) (S k)))
        with (run (step s (Tick t)) (repeat (Tick t) k)).
      destruct (tick_armed s t Ht) as (Hr & Hi & Ha).
      destruct (IH (step s (Tick t))) as [Hr' Ha']; [now rewrite Hi|].
      rewrite Hr', Ha', Hr, Ha. split; [lia | reflexivity].
  - intros Ht. unfold dispatch.
    destruct (nth_error (intervals (browser s)) t) as [[]|]; congruence.
Qed.

Lemma ticks_count_the_seconds_witness :
  recordingTime (hooks (run Sample.recording (repeat (Tick 0) 75))) = 75
  /\ dispatch (Tick 0) Scenario.stopping = Scenario.stopping.
Proof.
  destruct (ticks_count_the_seconds Sample.recording 0) as (Harmed & _).
  destruct (Harmed eq_refl 75) as (H & _).
  destruct (ticks_count_the_seconds Scenario.stopping 0) as (_ & Hoff).
  split; [exact H|].
  apply Hoff. intros E. vm_compute in E. discriminate E.
Defined.

(** ** Edits and the stored record *)

Lemma edit_event_keeps_file (s : State) (e : Event) :
  isEditEvent e = true ->
  history (hooks (step s e)) = history (hooks s)
  /\ currentFile (hooks (step s e)) = currentFile (hooks s).
Proof.
  intros He. unfold step. rewrite history_commit, currentFile_commit.
  destruct e; try discriminate; unfold dispatch, settle;
    try (destruct r; try discriminate;
         destruct (nth_error (pending (browser s)) i) as [[] |];
         simpl continuation);
    unfold_handlers; unfold_continuations; unfold_setters;
    repeat (break_match; simpl); auto.
Qed.

(** X25.  Typing, submitting, undoing and the replies to edits never
    write the current file or the history: after any sequence of them the
    history and the current file, with its analysis, are what they were,
    and a record restored afterwards is the record as stored, with no
    edited image over it. *)
Theorem edits_leave_the_record_untouched (s : State) (es : list Event) :
  Forall (fun e => isEditEvent e = true) es ->
  history (hooks (run s es)) = history (hooks s)
  /\ currentFile (hooks (run s es)) = currentFile (hooks s)
  /\ (forall i item,
        nth_error (history (hooks s)) i = Some item ->
        showHistory (hooks (run s es)) = true ->
        currentFile (hooks (step (run s es) (ClickHistoryItem i))) = Some item
        /\ editedImage (hooks (step (run s es) (ClickHistoryItem i))) = None
        /\ appState (hooks (step (run s es) (ClickHistoryItem i))) = VIEWING).
Proof.
  intros Hes.
  assert (H : history (hooks (run s es)) = history (hooks s)
              /\ currentFile (hooks (run s es)) = currentFile (hooks s)).
  { revert s. induction Hes as [|e es He _ IH]; intros s; [split; reflexivity|].
    change (run s (e :: es)) with (run (step s e) es).
    destruct (IH (step s e)) as [-> ->]. apply edit_event_keeps_file, He. }
  destruct H as [Hh Hf]. split; [exact Hh|]. split; [exact Hf|].
  intros i item Hi Hshow. unfold step, dispatch.
  rewrite currentFile_commit, editedImage_commit, appState_commit, Hshow, Hh, Hi.
  repeat split.
Qed.

Lemma edits_leave_the_record_untouched_witness :
  history (hooks (run Sample.viewing
                    [TypePrompt "make it blue"; SubmitEdit;
                     Settle 0 (ReplyEdit Sample.edited); TypePrompt "add a hat";
                     SubmitEdit; Settle 0 (ReplyEdit Sample.refusal)]))
  = [with_analysis Sample.photo Sample.insight]
  /\ currentFile (hooks (run Sample.viewing
                    [TypePrompt "make it blue"; SubmitEdit;
                     Settle 0 (ReplyEdit Sample.edited); TypePrompt "add a hat";
                     SubmitEdit; Settle 0 (ReplyEdit Sample.refusal)]))
     = Some (with_analysis Sample.photo Sample.insight).
Proof.
  destruct (@edits_leave_the_record_untouched Sample.viewing
              [TypePrompt "make it blue"; SubmitEdit;
               Settle 0 (ReplyEdit Sample.edited); TypePrompt "add a hat";
               SubmitEdit; Settle 0 (ReplyEdit Sample.refusal)])
    as (Hh & Hf & _).
  - repeat constructor.
  - split; [exact Hh | exact Hf].
Defined.

(** ** A state without a screen *)

(** X26.  Outside the camera screen, without a current file and with the
    history list closed, no control is rendered: every click, every typed
    prompt and every submission leaves the state as it is.  A call that
    fails after the user went back to the camera leads to such a state
    (see the sample). *)
Theorem no_control_without_a_screen (s : State) (e : Event) :
  cameraScreen s = false ->
  currentFile (hooks s) = None ->
  showHistory (hooks s) = false ->
  isControl e = true ->
  dispatch e s = s /\ hooks (step s e) = hooks s.
Proof.
  intros Hc Hf Hh He.
  assert (Hv : viewerScreen s = false).
  { unfold viewerScreen. rewrite Hf. destruct (appState (hooks s)); reflexivity. }
  assert (Hform : editFormShown s = false).
  { unfold editFormShown. rewrite Hf. destruct (appState (hooks s)); reflexivity. }
  assert (Hd : dispatch e s = s).
  { destruct e; try discriminate; unfold dispatch;
      rewrite ?Hc, ?Hv, ?Hform, ?Hh; reflexivity. }
  split; [exact Hd|]. unfold step. rewrite Hd.
  rewrite commit_unchanged by reflexivity.
  destruct (videoMounted s); reflexivity.
Qed.

Lemma no_control_without_a_screen_witness :
  appState (hooks Scenario.orphaned) = VIEWING
  /\ dispatch ClickCamera Scenario.orphaned = Scenario.orphaned
  /\ dispatch ClickHistory Scenario.orphaned = Scenario.orphaned.
Proof.
  split; [reflexivity|]. split.
  - apply (@no_control_without_a_screen Scenario.orphaned ClickCamera);
      reflexivity.
  - apply (@no_control_without_a_screen Scenario.orphaned ClickHistory);
      reflexivity.
Defined.

(** ** Holding and starting *)

Lemma deps_changed (a b : State) :
  appState (hooks b) <> appState (hooks a)
  \/ captureMode (hooks b) <> captureMode (hooks a) ->
  AppState_eqb (appState (hooks a)) (appState (hooks b))
  && CaptureMode_eqb (captureMode (hooks a)) (captureMode (hooks b)) = false.
Proof.
  intros Hch. apply andb_false_iff. destruct Hch as [H | H]; [left | right].
  - destruct (appState (hooks a)), (appState (hooks b)); try reflexivity; congruence.
  - destruct (captureMode (hooks a)), (captureMode (hooks b));
      try reflexivity; congruence.
Qed.

Lemma grant_for_current_run (x : State) (audio : bool) :
  let k := startCamera_settled (effectInst (browser x)) audio (Resolved tt) x in
  effectStream (browser k) = Some (List.length (streams (browser x)))
  /\ videoTrackRef (refs k) = Some (List.length (streams (browser x)))
  /\ streams (browser k)
     = streams (browser x) ++ [{| videoLive := true; audioLive := audio |}]
  /\ hooks k = hooks x
  /\ (videoMounted x = true ->
      videoSrc (refs k) = Some (List.length (streams (browser x)))).
Proof.
  unfold startCamera_settled; unfold_setters; simpl.
  rewrite Nat.eqb_refl. simpl.
  destruct (videoMounted _) eqn:E; simpl; repeat split.
  intros Hv. change (videoMounted x = false) in E. congruence.
Qed.

(** X27.  A camera grant for the current run of the camera effect is
    held by it: the new stream is live, it is the stream of the effect and
    of [videoTrackRef], and it is attached to the video element when that
    is rendered.  The next event that changes the state or the mode stops
    it. *)
Theorem granted_stream_is_held_until_the_next_change (s : State) (i : nat)
  (audio : bool) :
  nth_error (pending (browser s)) i
  = Some (AwaitGetUserMedia (effectInst (browser s)) audio) ->
  let n := List.length (streams (browser s)) in
  let granted := step s (Settle i ReplyGranted) in
  effectStream (browser granted) = Some n
  /\ videoTrackRef (refs granted) = Some n
  /\ nth_error (streams (browser granted)) n
     = Some {| videoLive := true; audioLive := audio |}
  /\ cameraHeld granted = true
  /\ (videoMounted s = true -> videoSrc (refs granted) = Some n)
  /\ (forall e,
        appState (hooks (step granted e)) <> appState (hooks granted)
        \/ captureMode (hooks (step granted e)) <> captureMode (hooks granted) ->
        nth_error (streams (browser (step granted e))) n = Some stopped).
Proof.
  intros Ht n granted.
  set (x := on_browser (fun b => b_pending (remove_nth i (pending b)) b) s).
  set (k := startCamera_settled (effectInst (browser x)) audio (Resolved tt) x).
  destruct (grant_for_current_run x audio) as (He & Hv & Hs & Hh & Hsrc).
  fold k in He, Hv, Hs, Hh, Hsrc.
  change (streams (browser x)) with (streams (browser s)) in *.
  change (hooks x) with (hooks s) in Hh.
  change (videoMounted x) with (videoMounted s) in Hsrc.
  fold n in He, Hv, Hsrc.
  assert (Hmount : videoMounted k = videoMounted s).
  { unfold videoMounted, cameraScreen. now rewrite Hh. }
  assert (Hg : granted = if videoMounted k then k else on_refs (r_videoSrc None) k).
  { subst granted. rewrite (settle_continues _ _ ReplyGranted Ht eq_refl).
    change (commit s k = if videoMounted k then k else on_refs (r_videoSrc None) k).
    apply commit_unchanged; now rewrite Hh. }
  assert (Hb : browser granted = browser k)
    by (rewrite Hg; destruct (videoMounted k); reflexivity).
  assert (Hnth : nth_error (streams (browser granted)) n
                 = Some {| videoLive := true; audioLive := audio |}).
  { rewrite Hb, Hs. subst n. rewrite nth_error_app2, Nat.sub_diag by lia.
    reflexivity. }
  split; [now rewrite Hb|]. split.
  { rewrite Hg. destruct (videoMounted k); exact Hv. }
  split; [exact Hnth|]. split.
  { unfold cameraHeld. rewrite Hb, Hs, existsb_app. simpl. apply orb_true_r. }
  split.
  { intros Hm. rewrite Hg, Hmount, Hm. apply Hsrc, Hm. }
  intros e Hch. unfold step in *.
  rewrite appState_commit, (commit_cell captureMode) in Hch by reflexivity.
  destruct (dispatch_streams_or_deps granted e) as [[Hst Hef] | [Ha Hc]].
  - eapply commit_stops_held_stream.
    + apply deps_changed, Hch.
    + rewrite Hef, Hb. exact He.
    + rewrite Hst. exact Hnth.
  - destruct Hch; congruence.
Qed.

Lemma granted_stream_is_held_until_the_next_change_witness :
  cameraHeld (step (mount []) (Settle 0 ReplyGranted)) = true
  /\ videoSrc (refs (step (mount []) (Settle 0 ReplyGranted))) = Some 0.
Proof.
  destruct (@granted_stream_is_held_until_the_next_change (mount []) 0 false eq_refl)
    as (_ & _ & _ & Hheld & Hsrc & _).
  split; [exact Hheld | apply Hsrc; reflexivity].
Defined.


